(** * Builder mirror resolution (content/test/gpu/unexpected_passes/builders.py)

    A shallow embedding of the module that lists the CI builders running a
    Telemetry GPU suite and resolves the try builders mirroring them, with
    the properties its specification states about it.

    Python values are modelled as follows: [str]/[unicode] as [string],
    [set] as [gset string], the module-level [dict] from CI builder to try
    builder as [gmap string string], a decoded JSON document as the
    inductive [json], and an exception as a constructor of [exn] carried by
    [result].  External effects (the file system, the [bb] command line
    tool, the JSON decoder of the standard library) are the fields of a
    [Host] record; the mutable function attribute [authenticated] and the
    commands that were spawned live in [World], threaded by a small state
    and exception monad. *)

From Stdlib Require Import Ascii String.
From stdpp Require Import base option list strings gmap.

Local Open Scope stdpp_scope.
#[local] Set Warnings "-clear-no-such-hyp".

(** ** Python values *)

Inductive exn : Type :=
  | RuntimeError (msg : string)
  | CalledProcessError
  | OSError
  | IOError
  | ValueError
  | AttributeError
  | TypeError
  | AssertionError.

Inductive result (A : Type) : Type :=
  | Return (a : A)
  | Raise (e : exn).
Arguments Return {A} a.
Arguments Raise {A} e.

#[global] Instance exn_eq_dec : EqDecision exn.
Proof. solve_decision. Defined.

#[global] Instance result_eq_dec {A} `{EqDecision A} : EqDecision (result A).
Proof. solve_decision. Defined.

Definition rbind {A B} (r : result A) (k : A → result B) : result B :=
  match r with
  | Return a => k a
  | Raise e => Raise e
  end.

Declare Scope result_scope.
Delimit Scope result_scope with R.
Notation "x <- e ;; k" := (rbind e (λ x, k))
  (at level 100, e at next level, right associativity) : result_scope.
Local Open Scope result_scope.

(** What [json.load]/[json.loads] build.  A number keeps its lexeme: the
    module never computes with one.  An object lists its items in the
    iteration order of the [dict]; keys are looked up first-match. *)
#[warnings="-register-all"] Inductive json : Type :=
  | JNull
  | JBool (b : bool)
  | JNumber (lexeme : string)
  | JStr (s : string)
  | JArr (elems : list json)
  | JObj (items : list (string * json)).

(** ** String primitives *)

(** [s.endswith(suffix)] *)
Fixpoint endswith (s suffix : string) : bool :=
  if String.eqb s suffix then true
  else match s with
       | EmptyString => false
       | String _ s' => endswith s' suffix
       end.

(** [sub in s] for two strings: substring test. *)
Fixpoint str_contains (sub s : string) : bool :=
  if String.prefix sub s then true
  else match s with
       | EmptyString => false
       | String _ s' => str_contains sub s'
       end.

(** [s.split(sep)] for a one-character separator. *)
Fixpoint split (sep : ascii) (s : string) : list string :=
  match s with
  | EmptyString => [EmptyString]
  | String c s' =>
      if Ascii.eqb c sep then EmptyString :: split sep s'
      else match split sep s' with
           | h :: t => String c h :: t
           | [] => [String c EmptyString]
           end
  end.

(** [sep.join(parts)] *)
Fixpoint join (sep : string) (parts : list string) : string :=
  match parts with
  | [] => EmptyString
  | [p] => p
  | p :: rest => p +:+ sep +:+ join sep rest
  end.

(** The one-character strings a [for] loop over a string yields. *)
Fixpoint chars (s : string) : list string :=
  match s with
  | EmptyString => []
  | String c s' => String c EmptyString :: chars s'
  end.

(** ** Operations on decoded JSON *)

Fixpoint assoc_get {A} (k : string) (items : list (string * A)) : option A :=
  match items with
  | [] => None
  | (k', v) :: rest => if String.eqb k k' then Some v else assoc_get k rest
  end.

(** [j == s] for a string [s]. *)
Definition json_eq_str (s : string) (j : json) : bool :=
  match j with
  | JStr s' => String.eqb s s'
  | _ => false
  end.

(** [d.get(key, default)]: only a [dict] has the method. *)
Definition py_get (d : json) (key : string) (default : json) : result json :=
  match d with
  | JObj items => Return (from_option id default (assoc_get key items))
  | _ => Raise AttributeError
  end.

(** [needle in c] for a string [needle]: membership in a list, key
    membership in a dict, substring of a string; anything else is not
    iterable. *)
Definition py_contains (needle : string) (c : json) : result bool :=
  match c with
  | JArr elems => Return (existsb (json_eq_str needle) elems)
  | JObj items => Return (bool_decide (is_Some (assoc_get needle items)))
  | JStr s => Return (str_contains needle s)
  | _ => Raise TypeError
  end.

(** The values [for x in c] binds [x] to. *)
Definition py_iter (c : json) : result (list json) :=
  match c with
  | JArr elems => Return elems
  | JObj items => Return (JStr <$> items.*1)
  | JStr s => Return (JStr <$> chars s)
  | _ => Raise TypeError
  end.

(** [d.iteritems()] *)
Definition py_iteritems (d : json) : result (list (string * json)) :=
  match d with
  | JObj items => Return items
  | _ => Raise AttributeError
  end.

(** [x in S] for a set of strings [S]: the value is hashed first, and a
    list or a dict is unhashable. *)
Definition py_in_str_set (x : json) (S : gset string) : result bool :=
  match x with
  | JStr s => Return (bool_decide (s ∈ S))
  | JArr _ | JObj _ => Raise TypeError
  | _ => Return false
  end.

(** ** Module constants *)

Definition AUTOGENERATED_JSON_KEY : string :=
  "AAAAA1 AUTOGENERATED FILE DO NOT EDIT".

Definition GPU_TELEMETRY_ISOLATES : gset string :=
  list_to_set [
    "fuchsia_telemetry_gpu_integration_test";
    "telemetry_gpu_integration_test"
  ].

(** try builder -> the CI builders it mirrors, in the order of the source. *)
Definition FAKE_TRY_BUILDERS : list (string * list string) := [
  ("android_angle_rel_ng", [
     "ANGLE GPU Android Release (Nexus 5X)"]);
  ("android_optional_gpu_tests_rel", [
     "Optional Android Release (Nexus 5X)"]);
  ("linux-angle-rel", [
     "ANGLE GPU Linux Release (Intel HD 630)";
     "ANGLE GPU Linux Release (NVIDIA)"]);
  ("linux_optional_gpu_tests_rel", [
     "Optional Linux Release (Intel HD 630)";
     "Optional Linux Release (NVIDIA)"]);
  ("mac-angle-rel", [
     "ANGLE GPU Mac Release (Intel)";
     "ANGLE GPU Mac Retina Release (AMD)";
     "ANGLE GPU Mac Retina Release (NVIDIA)"]);
  ("mac_optional_gpu_tests_rel", [
     "Optional Mac Release (Intel)";
     "Optional Mac Retina Release (AMD)";
     "Optional Mac Retina Release (NVIDIA)"]);
  ("win-angle-rel-32", [
     "Win7 ANGLE Tryserver (AMD)"]);
  ("win-angle-rel-64", [
     "ANGLE GPU Win10 x64 Release (Intel HD 630)";
     "ANGLE GPU Win10 x64 Release (NVIDIA)"]);
  ("win_optional_gpu_tests_rel", [
     "Optional Win10 x64 Release (Intel HD 630)";
     "Optional Win10 x64 Release (NVIDIA)"])
].

(** The two nested loops that fill [FAKE_CI_BUILDERS] at import time,
    over an arbitrary table. *)
Definition invert_try_builders (table : list (string * list string))
    : gmap string string :=
  foldl (λ acc '(try_builder, ci_builder_list),
           foldl (λ acc ci, <[ci := try_builder]> acc) acc ci_builder_list)
        ∅ table.

Definition FAKE_CI_BUILDERS : gmap string string :=
  invert_try_builders FAKE_TRY_BUILDERS.

Definition NON_CHROMIUM_BUILDERS : gset string :=
  list_to_set [
    "Win V8 FYI Release (NVIDIA)";
    "Mac V8 FYI Release (Intel)";
    "Linux V8 FYI Release - pointer compression (NVIDIA)";
    "Linux V8 FYI Release (NVIDIA)";
    "Android V8 FYI Release (Nexus 5X)"
  ].

(** ** The host: everything the module reaches outside the interpreter *)

Record Host : Type := {
  (** [os.listdir(TESTING_BUILDBOT_DIR)] *)
  listdir : result (list string);
  (** [open(os.path.join(TESTING_BUILDBOT_DIR, name)).read()] *)
  read_file : string → result string;
  (** the JSON decoder; [None] is its [ValueError] *)
  json_decode : string → option json;
  (** does [bb auth-info] exit with status 0 *)
  bb_auth_info : bool;
  (** [bb ls -id -1 -status ended <target> | bb get -A -json]: the bytes
      on standard output, or the exception of [Popen]/[check_output] *)
  bb_ls_get : string → result string;
  (** the order in which the interpreter iterates over the set that was
      built by adding these strings, in this order, to an empty set *)
  set_order : list string → list string;
  (** an iteration visits every element of the set, each once *)
  set_order_spec : ∀ history,
    NoDup (set_order history) ∧ ∀ x, x ∈ set_order history ↔ x ∈ history;
}.

Definition json_loads (h : Host) (text : string) : result json :=
  match json_decode h text with
  | Some j => Return j
  | None => Raise ValueError
  end.

(** ** Listing the CI builders of a suite *)

(** [_SuiteInTests], the loop over the already materialised records. *)
Fixpoint suite_in_records (suite : string) (tests : list json) : result bool :=
  match tests with
  | [] => Return false
  | t :: rest =>
      isolate <- py_get t "isolate_name" JNull;;
      known <- py_in_str_set isolate GPU_TELEMETRY_ISOLATES;;
      if negb known then suite_in_records suite rest
      else
        args <- py_get t "args" (JArr []);;
        found <- py_contains suite args;;
        if found then Return true else suite_in_records suite rest
  end.

Definition _SuiteInTests (suite : string) (tests : json) : result bool :=
  ts <- py_iter tests;;
  suite_in_records suite ts.

(** The inner loop of [GetCiBuilders] over the items of one file. *)
Fixpoint scan_builders (suite : string) (items : list (string * json))
    (ci_builders : gset string) : result (gset string) :=
  match items with
  | [] => Return ci_builders
  | (builder, test_map) :: rest =>
      if str_contains "Builder" builder || str_contains "AAAA" builder
      then scan_builders suite rest ci_builders
      else
        tests <- py_get test_map "isolated_scripts" (JArr []);;
        runs <- _SuiteInTests suite tests;;
        if negb runs then scan_builders suite rest ci_builders
        else scan_builders suite rest ({[builder]} ∪ ci_builders)
  end.

(** The outer loop of [GetCiBuilders] over the directory entries. *)
Fixpoint scan_files (h : Host) (suite : string) (files : list string)
    (ci_builders : gset string) : result (gset string) :=
  match files with
  | [] => Return ci_builders
  | buildbot_file :: rest =>
      if negb (endswith buildbot_file ".json")
      then scan_files h suite rest ci_builders
      else
        text <- read_file h buildbot_file;;
        buildbot_json <- json_loads h text;;
        marked <- py_contains AUTOGENERATED_JSON_KEY buildbot_json;;
        if negb marked then scan_files h suite rest ci_builders
        else
          items <- py_iteritems buildbot_json;;
          ci_builders' <- scan_builders suite items ci_builders;;
          scan_files h suite rest ci_builders'
  end.

Definition GetCiBuilders (h : Host) (suite : string) : result (gset string) :=
  files <- listdir h;;
  scan_files h suite files ∅.

(** ** The interpreter state and the monad of effectful functions *)

Inductive command : Type :=
  | BbAuthInfo
  | BbLsGet (target : string).

Record World : Type := {
  (** the function attribute [_GetBuildbucketOutputForCiBuilder.authenticated] *)
  authenticated : bool;
  (** the subprocesses spawned so far, oldest first *)
  spawned : list command;
}.

#[global] Instance command_eq_dec : EqDecision command.
Proof. solve_decision. Defined.

#[global] Instance World_eq_dec : EqDecision World.
Proof. solve_decision. Defined.

(** The state of a freshly imported module. *)
Definition initial_world : World :=
  {| authenticated := false; spawned := [] |}.

Definition M (A : Type) : Type := World → World * result A.

Definition sret {A} (a : A) : M A := λ w, (w, Return a).
Definition sraise {A} (e : exn) : M A := λ w, (w, Raise e).
Definition slift {A} (r : result A) : M A := λ w, (w, r).
Definition sbind {A B} (m : M A) (k : A → M B) : M B := λ w,
  match m w with
  | (w', Return a) => k a w'
  | (w', Raise e) => (w', Raise e)
  end.

(** [try: m  except: handler] with a bare [except]. *)
Definition try_except {A} (m : M A) (handler : M A) : M A := λ w,
  match m w with
  | (w', Return a) => (w', Return a)
  | (w', Raise _) => handler w'
  end.

Declare Scope state_scope.
Delimit Scope state_scope with S.
Notation "x <- e ;; k" := (sbind e (λ x, k))
  (at level 100, e at next level, right associativity) : state_scope.

Definition spawn (c : command) : M unit := λ w,
  ({| authenticated := authenticated w; spawned := spawned w ++ [c] |},
   Return tt).

Definition get_authenticated : M bool := λ w, (w, Return (authenticated w)).

Definition set_authenticated (b : bool) : M unit := λ w,
  ({| authenticated := b; spawned := spawned w |}, Return tt).

(** [subprocess.check_call(['bb', 'auth-info'], ...)] *)
Definition check_call_auth_info (h : Host) : M unit :=
  (_ <- spawn BbAuthInfo;;
   if bb_auth_info h then sret tt else sraise CalledProcessError)%S.

(** The [Popen] of [bb ls] piped into the [check_output] of [bb get]. *)
Definition check_output_ls_get (h : Host) (target : string) : M string :=
  (_ <- spawn (BbLsGet target);;
   slift (bb_ls_get h target))%S.

Definition not_logged_in : string :=
  "You are not logged into bb - run `bb auth-login`.".

(** ['chromium/ci/%s' % ci_builder] *)
Definition bb_target (ci_builder : string) : string :=
  "chromium/ci/" +:+ ci_builder.

Definition _GetBuildbucketOutputForCiBuilder (h : Host) (ci_builder : string)
    : M string :=
  (known <- get_authenticated;;
   _ <- (if negb known then
           _ <- try_except (check_call_auth_info h)
                           (sraise (RuntimeError not_logged_in));;
           set_authenticated true
         else sret tt);;
   check_output_ls_get h (bb_target ci_builder))%S.

(** ** Resolving the mirrors of one CI builder *)

(** [mirror.split(':')]: only a string has the method. *)
Definition py_split (mirror : json) (sep : ascii) : result (list string) :=
  match mirror with
  | JStr s => Return (split sep s)
  | _ => Raise AttributeError
  end.

(** The loop [for mirror in mirrored] with its assertion, as the
    interpreter runs it by default (assertions are not compiled out). *)
Fixpoint add_mirrors (mirrored : list json) (mirrored_builders : gset string)
    : result (gset string) :=
  match mirrored with
  | [] => Return mirrored_builders
  | mirror :: rest =>
      parts <- py_split mirror ":";;
      match parts with
      | [_; name] => add_mirrors rest ({[name]} ∪ mirrored_builders)
      | _ => Raise AssertionError
      end
  end.

(** [bb_json.get('output', {}).get('properties', {})
          .get('mirrored_builders', [])] *)
Definition mirrored_field (bb_json : json) : result json :=
  output <- py_get bb_json "output" (JObj []);;
  properties <- py_get output "properties" (JObj []);;
  py_get properties "mirrored_builders" (JArr []).

(** Everything [_GetMirroredBuildersForCiBuilder] does with a non-empty
    Buildbucket output. *)
Definition mirrors_of_output (h : Host) (bb_output : string)
    : result (gset string * bool) :=
  bb_json <- json_loads h bb_output;;
  mirrored <- mirrored_field bb_json;;
  mirrors <- py_iter mirrored;;
  mirrored_builders <- add_mirrors mirrors ∅;;
  Return (mirrored_builders, true).

Definition _GetMirroredBuildersForCiBuilder (h : Host) (ci_builder : string)
    : M (gset string * bool) :=
  if bool_decide (ci_builder ∈ NON_CHROMIUM_BUILDERS) then sret (∅, true)
  else
    match FAKE_CI_BUILDERS !! ci_builder with
    | Some try_builder => sret ({[try_builder]}, true)
    | None =>
        (bb_output <- _GetBuildbucketOutputForCiBuilder h ci_builder;;
         if String.eqb bb_output EmptyString then sret ({[ci_builder]}, false)
         else slift (mirrors_of_output h bb_output))%S
    end.

(** ** Resolving a collection of CI builders *)

(** Modelled from the spec: [multiprocessing_utils.GetProcessPool().map] is
    not part of the sources at hand.  The spec describes a pool that runs
    one independent task per CI builder and whose map waits for the tasks
    before returning; the tasks are run here one after the other in input
    order on one interpreter state, and an exception of a task is the
    exception of the map. *)
Fixpoint pool_map {A B} (f : A → M B) (xs : list A) : M (list B) :=
  match xs with
  | [] => sret []
  | x :: rest =>
      (y <- f x;;
       ys <- pool_map f rest;;
       sret (y :: ys))%S
  end.

(** The body of the loop of [GetTryBuilders] over the results of the pool,
    on the pair of accumulators [(mirrored_builders, no_output_builders)]. *)
Definition merge_step (acc : gset string * gset string)
    (res : gset string * bool) : gset string * gset string :=
  let '(mirrored_builders, no_output_builders) := acc in
  let '(builders, found_mirror) := res in
  if found_mirror
  then (mirrored_builders ∪ builders, no_output_builders)
  else (mirrored_builders, no_output_builders ∪ builders).

Definition merge_results (results : list (gset string * bool))
    : gset string * gset string :=
  foldl merge_step (∅, ∅) results.

Definition newline : string := String "010" EmptyString.

(** The strings that the loop adds to [no_output_builders], in the order
    in which it adds them: a set iterates in an order that depends on
    them.  A result with [found_mirror] false holds one name, the CI
    builder of its task, so that [elements] fixes no order here. *)
Definition no_output_history (results : list (gset string * bool))
    : list string :=
  concat ((λ res : gset string * bool,
             if res.2 then [] else elements res.1) <$> results).

(** The message of the aggregate error, for the names in the order
    ['\n'.join] meets them. *)
Definition no_output_message (names : list string) : string :=
  "Did not get Buildbucket output for the following builders. They may "
  +:+ "need to be added to the FAKE_TRY_BUILDERS or NON_CHROMIUM_BUILDERS "
  +:+ "mappings." +:+ newline
  +:+ join newline names.

Definition GetTryBuilders (h : Host) (ci_builders : list string)
    : M (gset string) :=
  (results <- pool_map (_GetMirroredBuildersForCiBuilder h) ci_builders;;
   let '(mirrored_builders, no_output_builders) := merge_results results in
   if bool_decide (no_output_builders ≠ ∅)
   then sraise (RuntimeError
                  (no_output_message
                     (set_order h (no_output_history results))))
   else sret mirrored_builders)%S.

(** * Vocabulary of the specification *)

(** [sub] occurs in [s]. *)
Definition occurs_in (sub s : string) : Prop :=
  ∃ pre post, s = pre +:+ sub +:+ post.

(** The number of occurrences of a character. *)
Fixpoint count_char (c : ascii) (s : string) : nat :=
  match s with
  | EmptyString => 0
  | String c' s' => (if Ascii.eqb c' c then 1 else 0) + count_char c s'
  end.

(** ** Mirror resolution *)

(** The builders that reach the third tier, the live query. *)
Definition queried_live (ci_builder : string) : Prop :=
  (ci_builder ∉ NON_CHROMIUM_BUILDERS) ∧
  FAKE_CI_BUILDERS !! ci_builder = None.

(** The login check lets the query through: it has passed before, or
    [bb auth-info] succeeds. *)
Definition can_query (h : Host) (w : World) : Prop :=
  authenticated w = true ∨ bb_auth_info h = true.

(** What a resolution yields once the login check is out of the way, as a
    function of the host alone. *)
Definition resolution (h : Host) (ci_builder : string)
    : result (gset string * bool) :=
  if bool_decide (ci_builder ∈ NON_CHROMIUM_BUILDERS) then Return (∅, true)
  else
    match FAKE_CI_BUILDERS !! ci_builder with
    | Some try_builder => Return ({[try_builder]}, true)
    | None =>
        bb_output <- bb_ls_get h (bb_target ci_builder);;
        if String.eqb bb_output EmptyString
        then Return ({[ci_builder]}, false)
        else mirrors_of_output h bb_output
    end.

(** A task result that adds at least one try builder to the merged set. *)
Definition contributes_try_builder (r : gset string * bool) : Prop :=
  r.2 = true ∧ r.1 ≠ ∅.

(** The accounting invariant in its strict reading: each input builder
    either contributed a try builder or sits in the failure set, and not
    both. *)
Definition every_builder_in_exactly_one_output
    (h : Host) (w : World) (ci_builders : list string) : Prop :=
  ∀ w' results,
    pool_map (_GetMirroredBuildersForCiBuilder h) ci_builders w
      = (w', Return results) →
    ∀ i ci r, ci_builders !! i = Some ci → results !! i = Some r →
      (contributes_try_builder r ∧ ci ∉ (merge_results results).2) ∨
      (¬ contributes_try_builder r ∧ ci ∈ (merge_results results).2).

(** A builder that a pass records as unresolved: it reaches the live
    query, and the query prints nothing. *)
Definition unresolved_builder (h : Host) (ci_builder : string) : Prop :=
  queried_live ci_builder ∧
  bb_ls_get h (bb_target ci_builder) = Return EmptyString.

(** The failure policy in its strict reading: a pass raises exactly when
    one of its builders is unresolved. *)
Definition raises_iff_unresolved (h : Host) (w : World)
    (ci_builders : list string) : Prop :=
  (∃ e, (GetTryBuilders h ci_builders w).2 = Raise e) ↔
  ∃ ci, ci ∈ ci_builders ∧ unresolved_builder h ci.



(** The try builders the static table associates with a CI builder: the
    keys of [FAKE_TRY_BUILDERS] whose list names it. *)
Definition overridden_try_builders (ci_builder : string) : list string :=
  (filter (λ entry, ci_builder ∈ entry.2) FAKE_TRY_BUILDERS).*1.

(** A decoded response without a non-empty [mirrored_builders] list: one of
    the three keys is missing along the path, or the list is empty. *)
Definition lacks_mirrors (bb_json : json) : Prop :=
  ∃ top, bb_json = JObj top ∧
    (assoc_get "output" top = None ∨
     ∃ output, assoc_get "output" top = Some (JObj output) ∧
       (assoc_get "properties" output = None ∨
        ∃ properties,
          assoc_get "properties" output = Some (JObj properties) ∧
          (assoc_get "mirrored_builders" properties = None ∨
           assoc_get "mirrored_builders" properties = Some (JArr [])))).

(** The entry ["<group>:<name>"] of a [mirrored_builders] list. *)
Definition mirror_entry (group_name : string * string) : json :=
  JStr (group_name.1 +:+ String ":" group_name.2).

Definition colon_free (s : string) : Prop := count_char ":" s = 0.

(** ** Listing the CI builders *)

(** The name filter of [GetCiBuilders]. *)
Definition excluded_name (builder : string) : bool :=
  str_contains "Builder" builder || str_contains "AAAA" builder.

(** A well-formed test record: an object with an isolate name and an
    argument list. *)
Definition wf_record (t : json) : Prop :=
  ∃ items isolate args,
    t = JObj items ∧
    assoc_get "isolate_name" items = Some (JStr isolate) ∧
    assoc_get "args" items = Some (JArr args).

(** A well-formed builder entry: an object whose [isolated_scripts], when
    present, is a list of well-formed records. *)
Definition wf_test_map (test_map : json) : Prop :=
  ∃ items,
    test_map = JObj items ∧
    (assoc_get "isolated_scripts" items = None ∨
     ∃ tests, assoc_get "isolated_scripts" items = Some (JArr tests) ∧
              Forall wf_record tests).

(** The record runs the suite on a Telemetry GPU isolate. *)
Definition record_runs (suite : string) (t : json) : Prop :=
  ∃ items isolate args,
    t = JObj items ∧
    assoc_get "isolate_name" items = Some (JStr isolate) ∧
    assoc_get "args" items = Some (JArr args) ∧
    isolate ∈ GPU_TELEMETRY_ISOLATES ∧ JStr suite ∈ args.

(** The builder entry has at least one such record. *)
Definition test_map_runs (suite : string) (test_map : json) : Prop :=
  ∃ items tests t,
    test_map = JObj items ∧
    assoc_get "isolated_scripts" items = Some (JArr tests) ∧
    t ∈ tests ∧ record_runs suite t.

(** What [json.load] makes of a directory entry. *)
Definition file_json (h : Host) (file : string) : result json :=
  text <- read_file h file;;
  json_loads h text.

(** Every [.json] entry of the directory decodes to an object, and in an
    object that carries the marker of a generated file the builder
    entries, the ones the name filter lets through, are well-formed. *)
Definition wf_directory (h : Host) (files : list string) : Prop :=
  ∀ file, file ∈ files → endswith file ".json" = true →
    ∃ items, file_json h file = Return (JObj items) ∧
      (is_Some (assoc_get AUTOGENERATED_JSON_KEY items) →
       ∀ builder test_map,
         (builder, test_map) ∈ items → excluded_name builder = false →
         wf_test_map test_map).

(** [builder] is a top-level key, with value [test_map], of a [.json]
    entry that carries the marker of a generated file. *)
Definition listed (h : Host) (files : list string) (builder : string)
    (test_map : json) : Prop :=
  ∃ file items,
    file ∈ files ∧ endswith file ".json" = true ∧
    file_json h file = Return (JObj items) ∧
    is_Some (assoc_get AUTOGENERATED_JSON_KEY items) ∧
    (builder, test_map) ∈ items.

(** The listing in its strict reading: exactly the builders with a record
    that runs the suite. *)
Definition lists_exactly_the_runners (h : Host) (suite : string) : Prop :=
  ∀ files, listdir h = Return files → wf_directory h files →
    ∃ S, GetCiBuilders h suite = Return S ∧
      ∀ builder, builder ∈ S ↔
        ∃ test_map, listed h files builder test_map ∧
                    test_map_runs suite test_map.

(** The same host with another directory listing. *)
Definition with_listdir (h : Host) (files : list string) : Host := {|
  listdir := Return files;
  read_file := read_file h;
  json_decode := json_decode h;
  bb_auth_info := bb_auth_info h;
  bb_ls_get := bb_ls_get h;
  set_order := set_order h;
  set_order_spec := set_order_spec h;
|}.

(** A [.json] entry that cannot be opened or does not decode. *)
Definition unusable_file (h : Host) (file : string) : Prop :=
  endswith file ".json" = true ∧ ∃ e, file_json h file = Raise e.

(** Skipping such an entry: the listing is what it would be without it. *)
Definition skips_unusable_files (h : Host) (suite : string) : Prop :=
  ∀ before file after,
    listdir h = Return (before ++ file :: after) →
    unusable_file h file →
    GetCiBuilders h suite
      = GetCiBuilders (with_listdir h (before ++ after)) suite.

(** An entry the loop passes over: another extension, or a document
    without the marker key. *)
Definition passed_over (h : Host) (file : string) : Prop :=
  endswith file ".json" = false ∨
  ∃ j, file_json h file = Return j ∧
       py_contains AUTOGENERATED_JSON_KEY j = Return false.

(** ** Example hosts *)

(** The example hosts iterate over a set in the order of first insertion,
    one of the orders an interpreter may use. *)
Definition first_insertion_order (history : list string) :
    NoDup (remove_dups history) ∧
    ∀ x, x ∈ remove_dups history ↔ x ∈ history :=
  conj (NoDup_remove_dups history) (λ x, elem_of_remove_dups history x).

(** A host with the given files, as name and content, and a decoder known
    by its graph. *)
Definition fs_host (files : list (string * string))
    (decoder : list (string * json)) : Host := {|
  listdir := Return files.*1;
  read_file := λ name,
    match assoc_get name files with
    | Some text => Return text
    | None => Raise IOError
    end;
  json_decode := λ text, assoc_get text decoder;
  bb_auth_info := true;
  bb_ls_get := λ _, Raise CalledProcessError;
  set_order := remove_dups;
  set_order_spec := first_insertion_order;
|}.

(** The JSON text of a document whose strings need no escaping. *)
Definition dq (s : string) : string :=
  String "034" EmptyString +:+ s +:+ String "034" EmptyString.

Fixpoint render (j : json) : string :=
  match j with
  | JNull => "null"
  | JBool b => if b then "true" else "false"
  | JNumber lexeme => lexeme
  | JStr s => dq s
  | JArr elems => "[" +:+ join ", " (map render elems) +:+ "]"
  | JObj items =>
      "{" +:+ join ", " (map (λ kv, dq kv.1 +:+ ": " +:+ render kv.2) items)
      +:+ "}"
  end.

(** A generated suite file with a compile-only builder that nevertheless
    declares the suite, a tester that runs it, and a tester that runs
    another isolate with the same argument. *)
Definition gpu_record (isolate : string) (args : list string) : json :=
  JObj [("args", JArr (JStr <$> args));
        ("isolate_name", JStr isolate);
        ("name", JStr "webgl_conformance_tests")].

Definition gpu_fyi_items : list (string * json) := [
  (AUTOGENERATED_JSON_KEY, JObj []);
  ("AAAAA2 See generate_buildbot_json.py to make changes", JObj []);
  ("GPU FYI Linux Builder",
   JObj [("isolated_scripts",
          JArr [gpu_record "telemetry_gpu_integration_test"
                  ["my_suite"; "--show-stdout"]])]);
  ("Linux FYI Release (NVIDIA)",
   JObj [("isolated_scripts",
          JArr [gpu_record "telemetry_gpu_integration_test"
                  ["my_suite"; "--show-stdout"]])]);
  ("Linux FYI GPU TSAN Release",
   JObj [("isolated_scripts",
          JArr [gpu_record "angle_unittests" ["my_suite"]])])
].

Definition gpu_fyi_text : string := render (JObj gpu_fyi_items).

Definition gpu_fyi_host : Host :=
  fs_host [("chromium.gpu.fyi.json", gpu_fyi_text);
           ("OWNERS", "file://content/test/gpu/OWNERS")]
          [(gpu_fyi_text, JObj gpu_fyi_items)].

(** The same directory with a truncated file in front. *)
Definition broken_host : Host :=
  fs_host [("broken.json", "{");
           ("chromium.gpu.fyi.json", gpu_fyi_text)]
          [(gpu_fyi_text, JObj gpu_fyi_items)].

(** A host on which nothing outside the interpreter works. *)
Definition bare_host : Host := {|
  listdir := Return [];
  read_file := λ _, Raise IOError;
  json_decode := λ _, None;
  bb_auth_info := true;
  bb_ls_get := λ _, Raise CalledProcessError;
  set_order := remove_dups;
  set_order_spec := first_insertion_order;
|}.

(** A host whose [bb] answers every builder with the bytes [out], decoded
    to [doc]. *)
Definition bb_host (out : string) (doc : option json) : Host := {|
  listdir := Return [];
  read_file := λ _, Raise IOError;
  json_decode := λ text, if String.eqb text out then doc else None;
  bb_auth_info := true;
  bb_ls_get := λ _, Return out;
  set_order := remove_dups;
  set_order_spec := first_insertion_order;
|}.

(** A build record as [bb get -A -json] prints it, reduced to the part
    that is read. *)
Definition response_json (mirrors : list string) : json :=
  JObj [("output", JObj [("properties",
           JObj [("mirrored_builders", JArr (JStr <$> mirrors))])])].

Definition response_text (mirrors : list string) : string :=
  render (response_json mirrors).

Definition response_host (mirrors : list string) : Host :=
  bb_host (response_text mirrors) (Some (response_json mirrors)).

Definition two_mirrors : list string :=
  ["tryserver.chromium.linux:my-try-builder"; "no-colon"].

(** A record whose properties name no mirror. *)
Definition no_mirrors_json : json :=
  JObj [("output", JObj [("properties", JObj [])])].

Definition no_mirrors_text : string := render no_mirrors_json.

Definition no_mirrors_host : Host :=
  bb_host no_mirrors_text (Some no_mirrors_json).

(** A host whose [bb] prints something that is not JSON. *)
Definition garbled_host : Host := bb_host "<html>502</html>" None.

(** A pass over three builders, one per tier, on a host whose [bb] prints
    nothing. *)
Definition silent_host : Host := bb_host EmptyString None.

Definition three_tiers : list string :=
  ["Win V8 FYI Release (NVIDIA)"; "my-ci-builder";
   "ANGLE GPU Linux Release (NVIDIA)"].

Definition three_tiers_results : list (gset string * bool) :=
  [(∅, true); ({["my-ci-builder"]}, false); ({["linux-angle-rel"]}, true)].

Definition after_one_query : World :=
  {| authenticated := true;
     spawned := [BbAuthInfo; BbLsGet "chromium/ci/my-ci-builder"] |}.

(** ** Further vocabulary *)

(** No CI builder is listed under two different try builders. *)
Definition single_valued (table : list (string * list string)) : Prop :=
  ∀ try1 cis1 try2 cis2 ci,
    (try1, cis1) ∈ table → (try2, cis2) ∈ table →
    ci ∈ cis1 → ci ∈ cis2 → try1 = try2.

(** The inner import-time loop, for one entry of the table. *)
Definition invert_step (acc : gmap string string)
    (entry : string * list string) : gmap string string :=
  foldl (λ acc ci, <[ci := entry.1]> acc) acc entry.2.

(** The login check of the next query will pass. *)
Definition login_ok (h : Host) (w : World) : bool :=
  authenticated w || bb_auth_info h.

(** What one task yields, as a function of the host and of whether the
    login check passes. *)
Definition task_outcome (h : Host) (logged_in : bool) (ci_builder : string)
    : result (gset string * bool) :=
  if logged_in then resolution h ci_builder
  else if bool_decide (ci_builder ∈ NON_CHROMIUM_BUILDERS)
  then Return (∅, true)
  else
    match FAKE_CI_BUILDERS !! ci_builder with
    | Some try_builder => Return ({[try_builder]}, true)
    | None => Raise (RuntimeError not_logged_in)
    end.

(** The first exception, or all the values. *)
Fixpoint map_results {A B} (f : A → result B) (xs : list A)
    : result (list B) :=
  match xs with
  | [] => Return []
  | x :: rest =>
      y <- f x;;
      ys <- map_results f rest;;
      Return (y :: ys)
  end.

(** What [GetTryBuilders] makes of the outcome of the pool. *)
Definition pass_outcome (h : Host)
    (pool : result (list (gset string * bool))) : result (gset string) :=
  results <- pool;;
  if bool_decide ((merge_results results).2 ≠ ∅)
  then Raise (RuntimeError
                (no_output_message (set_order h (no_output_history results))))
  else Return (merge_results results).1.

(** A test record that is a dict, possibly without an isolate name or
    without arguments. *)
Definition lenient_record (t : json) : Prop :=
  ∃ items,
    t = JObj items ∧
    (assoc_get "isolate_name" items = None ∨
     ∃ isolate, assoc_get "isolate_name" items = Some (JStr isolate)) ∧
    (assoc_get "args" items = None ∨
     ∃ args, assoc_get "args" items = Some (JArr args)).

(** What a command of the log can be after a pass over [cis] that
    started in [w]. *)
Definition spawned_for (cis : list string) (w : World) (c : command) : Prop :=
  c ∈ spawned w ∨ c = BbAuthInfo ∨
  ∃ ci, ci ∈ cis ∧ queried_live ci ∧ c = BbLsGet (bb_target ci).

(** A host without [bb]: no login, and every query fails to start. *)
Definition offline_host : Host := {|
  listdir := Return [];
  read_file := λ _, Raise IOError;
  json_decode := λ _, None;
  bb_auth_info := false;
  bb_ls_get := λ _, Raise OSError;
  set_order := remove_dups;
  set_order_spec := first_insertion_order;
|}.

(** * Properties *)

(** ** Strings *)

Section strings.
Implicit Types s t sub : string.

Lemma append_cons c s t : String c s +:+ t = String c (s +:+ t).
Proof. reflexivity. Qed.

Lemma append_nil_l s : EmptyString +:+ s = s.
Proof. reflexivity. Qed.

Lemma append_assoc s t u : (s +:+ t) +:+ u = s +:+ t +:+ u.
Proof.
  induction s as [|c s IH]; [done|].
  by rewrite !append_cons, IH.
Qed.

Lemma prefix_spec sub s :
  String.prefix sub s = true ↔ ∃ post, s = sub +:+ post.
Proof.
  revert s. induction sub as [|c sub IH]; intros s.
  - split; [intros _; by exists s|by destruct s].
  - destruct s as [|c' s]; simpl.
    + split; [done|]. intros [post Hpost]. by rewrite append_cons in Hpost.
    + destruct (Ascii.ascii_dec c c') as [<-|Hne].
      * rewrite IH. split; intros [post Hpost]; exists post.
        -- by rewrite append_cons, Hpost.
        -- rewrite append_cons in Hpost. by injection Hpost.
      * split; [done|]. intros [post Hpost].
        rewrite append_cons in Hpost. by injection Hpost as -> _.
Qed.

Lemma str_contains_unfold sub s :
  str_contains sub s =
    if String.prefix sub s then true
    else match s with
         | EmptyString => false
         | String _ s' => str_contains sub s'
         end.
Proof. by destruct s. Qed.

Lemma str_contains_spec sub s :
  str_contains sub s = true ↔ occurs_in sub s.
Proof.
  induction s as [|c s IH]; rewrite str_contains_unfold;
    destruct (String.prefix sub _) eqn:Hp.
  - split; [intros _|done].
    apply prefix_spec in Hp as [post Hp]. by exists EmptyString, post.
  - split; [done|]. intros [pre [post Hs]].
    destruct pre; [|by rewrite append_cons in Hs].
    apply not_true_iff_false in Hp. destruct Hp.
    apply prefix_spec. by exists post.
  - split; [intros _|done].
    apply prefix_spec in Hp as [post Hp]. by exists EmptyString, post.
  - rewrite IH. split.
    + intros [pre [post ->]]. by exists (String c pre), post.
    + intros [pre [post Hs]]. destruct pre as [|c' pre].
      * apply not_true_iff_false in Hp. destruct Hp.
        apply prefix_spec. by exists post.
      * rewrite append_cons in Hs. injection Hs as _ ->.
        by exists pre, post.
Qed.

Lemma split_nonempty sep s : split sep s ≠ [].
Proof.
  destruct s as [|c s]; simpl; [done|].
  destruct (Ascii.eqb c sep); [done|]. by destruct (split sep s).
Qed.

(** [split] cuts at every separator: one more part than separators. *)
Lemma split_length sep s : length (split sep s) = S (count_char sep s).
Proof.
  induction s as [|c s IH]; simpl; [done|].
  destruct (Ascii.eqb c sep); simpl; [by rewrite IH|].
  destruct (split sep s) eqn:Hs; [by destruct (split_nonempty sep s)|].
  by rewrite <-IH.
Qed.

Lemma split_no_sep sep s : count_char sep s = 0 → split sep s = [s].
Proof.
  induction s as [|c s IH]; simpl; [done|].
  destruct (Ascii.eqb c sep); [done|]. intros Hs. by rewrite IH.
Qed.

Lemma split_group_name sep group name :
  count_char sep group = 0 → count_char sep name = 0 →
  split sep (group +:+ String sep name) = [group; name].
Proof.
  intros Hg Hn. induction group as [|c g IH]; simpl in *.
  - by rewrite Ascii.eqb_refl, split_no_sep.
  - destruct (Ascii.eqb c sep); [done|]. by rewrite IH.
Qed.

Lemma occurs_in_append_l s t u : occurs_in s t → occurs_in s (u +:+ t).
Proof.
  intros (pre & post & ->). exists (u +:+ pre), post.
  symmetry. apply append_assoc.
Qed.

Lemma join_occurs sep (parts : list string) s :
  s ∈ parts → occurs_in s (join sep parts).
Proof.
  induction parts as [|p parts IH]; [by intros ?%elem_of_nil|].
  intros [->|Hin]%elem_of_cons.
  - destruct parts as [|q parts]; simpl.
    + exists EmptyString, EmptyString.
      rewrite append_nil_l. clear. induction p; [done|].
      by rewrite append_cons, <-IHp.
    + by exists EmptyString, (sep +:+ join sep (q :: parts)).
  - destruct (IH Hin) as [pre [post Hj]].
    destruct parts as [|q parts]; [by apply elem_of_nil in Hin|].
    change (join sep (p :: q :: parts))
      with (p +:+ sep +:+ join sep (q :: parts)).
    rewrite Hj. exists (p +:+ sep +:+ pre), post.
    by rewrite !append_assoc.
Qed.
End strings.

(** Closed goals are decided by evaluation. *)
Ltac by_evaluation := apply (bool_decide_unpack _); vm_compute; exact I.

(** ** The monad *)

(** The tables are compared by name below, never unfolded. *)
#[local] Opaque FAKE_CI_BUILDERS NON_CHROMIUM_BUILDERS GPU_TELEMETRY_ISOLATES.

Section resolution.
Context (h : Host).
Implicit Types (w : World) (ci : string).

Lemma bb_output_can_query ci w :
  can_query h w →
  ∃ w', _GetBuildbucketOutputForCiBuilder h ci w
          = (w', bb_ls_get h (bb_target ci)).
Proof.
  intros Hq. unfold _GetBuildbucketOutputForCiBuilder, sbind,
    get_authenticated, try_except, check_call_auth_info, sbind,
    check_output_ls_get, slift, spawn, set_authenticated, sret, sraise.
  simpl. destruct (authenticated w) eqn:Hauth; simpl.
  - destruct (bb_ls_get h (bb_target ci)); eauto.
  - destruct Hq as [?| ->]; [congruence|]. simpl.
    destruct (bb_ls_get h (bb_target ci)); eauto.
Qed.

(** Without a login the query is never reached. *)
Lemma bb_output_not_logged_in ci w :
  authenticated w = false → bb_auth_info h = false →
  (_GetBuildbucketOutputForCiBuilder h ci w).2
    = Raise (RuntimeError not_logged_in).
Proof.
  intros Hauth Hinfo. unfold _GetBuildbucketOutputForCiBuilder, sbind,
    get_authenticated, try_except, check_call_auth_info, sbind, spawn,
    sraise.
  simpl. by rewrite Hauth, Hinfo.
Qed.

Lemma bb_output_returns ci w w' out :
  _GetBuildbucketOutputForCiBuilder h ci w = (w', Return out) →
  bb_ls_get h (bb_target ci) = Return out.
Proof.
  unfold _GetBuildbucketOutputForCiBuilder, sbind,
    get_authenticated, try_except, check_call_auth_info, sbind,
    check_output_ls_get, slift, spawn, set_authenticated, sret, sraise.
  simpl. destruct (authenticated w); simpl.
  - destruct (bb_ls_get h (bb_target ci)); by intros [= _ ->].
  - destruct (bb_auth_info h); simpl; [|done].
    destruct (bb_ls_get h (bb_target ci)); by intros [= _ ->].
Qed.

(** Once the login check passes, a resolution is [resolution]. *)
Lemma resolve_can_query ci w :
  can_query h w →
  (_GetMirroredBuildersForCiBuilder h ci w).2 = resolution h ci.
Proof.
  intros Hq. unfold _GetMirroredBuildersForCiBuilder, resolution.
  case_bool_decide; [done|].
  destruct (FAKE_CI_BUILDERS !! ci); [done|].
  unfold sbind. destruct (bb_output_can_query ci w Hq) as [w' ->].
  destruct (bb_ls_get h (bb_target ci)) as [out|e]; simpl; [|done].
  by destruct (String.eqb out EmptyString).
Qed.

(** Without a login a builder of the third tier aborts with the login
    error; the first two tiers never ask. *)
Lemma resolve_not_logged_in ci w :
  queried_live ci → authenticated w = false → bb_auth_info h = false →
  (_GetMirroredBuildersForCiBuilder h ci w).2
    = Raise (RuntimeError not_logged_in).
Proof.
  intros [Hnon Hfake] Hauth Hinfo. unfold _GetMirroredBuildersForCiBuilder.
  rewrite (bool_decide_eq_false_2 _ Hnon), Hfake. unfold sbind.
  pose proof (bb_output_not_logged_in ci w Hauth Hinfo) as Hbb.
  destruct (_GetBuildbucketOutputForCiBuilder h ci w) as [w' r].
  simpl in Hbb. rewrite Hbb. reflexivity.
Qed.

(** A resolution that returns, returns [resolution]. *)
Lemma resolve_returns ci w w' r :
  _GetMirroredBuildersForCiBuilder h ci w = (w', Return r) →
  resolution h ci = Return r.
Proof.
  unfold _GetMirroredBuildersForCiBuilder, resolution.
  case_bool_decide; [by intros [= _ ->]|].
  destruct (FAKE_CI_BUILDERS !! ci); [by intros [= _ ->]|].
  unfold sbind.
  destruct (_GetBuildbucketOutputForCiBuilder h ci w) as [w1 [out|e]] eqn:Hbb;
    [|done].
  rewrite (bb_output_returns _ _ _ _ Hbb). simpl.
  destruct (String.eqb out EmptyString); [by intros [= _ ->]|].
  unfold slift. by intros [= _ ->].
Qed.

Lemma mirrors_of_output_found out builders found :
  mirrors_of_output h out = Return (builders, found) → found = true.
Proof.
  unfold mirrors_of_output, rbind.
  destruct (json_loads h out); [|done].
  destruct (mirrored_field _); [|done].
  destruct (py_iter _); [|done].
  destruct (add_mirrors _ _); [|done]. by intros [= _ <-].
Qed.

(** [found_mirror] is [False] only for an empty query output, and the
    set is then the CI builder itself. *)
Lemma resolution_not_found ci builders :
  resolution h ci = Return (builders, false) ↔
  queried_live ci ∧ bb_ls_get h (bb_target ci) = Return EmptyString ∧
  builders = {[ci]}.
Proof.
  unfold resolution, queried_live. case_bool_decide as Hnon.
  { split; [intros [=]|]. intros [[Hn _] _]. destruct (Hn Hnon). }
  destruct (FAKE_CI_BUILDERS !! ci) as [try_builder|].
  { split; [intros [=]|]. intros [[_ [=]] _]. }
  destruct (bb_ls_get h (bb_target ci)) as [out|e]; simpl.
  - destruct (String.eqb out EmptyString) eqn:Hout.
    + apply String.eqb_eq in Hout as ->. split.
      * intros [= <-]. repeat split; fast_done.
      * intros (_ & _ & ->). reflexivity.
    + split.
      * intros [=]%mirrors_of_output_found.
      * intros (_ & [= ->] & _). by rewrite String.eqb_refl in Hout.
  - split; [intros [=]|]. intros (_ & [=] & _).
Qed.

(** The map returns one result per input, each the [resolution] of its
    builder. *)
Lemma pool_map_returns (cis : list string) w w' results :
  pool_map (_GetMirroredBuildersForCiBuilder h) cis w
    = (w', Return results) →
  Forall2 (λ ci r, resolution h ci = Return r) cis results.
Proof.
  revert w w' results.
  induction cis as [|ci cis IH]; intros w w' results; simpl.
  - unfold sret. by intros [= _ <-].
  - unfold sbind at 1.
    destruct (_GetMirroredBuildersForCiBuilder h ci w)
      as [w1 [r|e]] eqn:Hr; [|done].
    unfold sbind at 1.
    destruct (pool_map _ cis w1) as [w2 [rs|e]] eqn:Hrs; [|done].
    unfold sret. intros [= _ <-]. constructor; [|by eapply IH].
    by eapply resolve_returns.
Qed.
End resolution.

(** ** Merging the task results *)

Lemma merge_from_spec (results : list (gset string * bool))
    (m n : gset string) (x : string) :
  (x ∈ (foldl merge_step (m, n) results).1 ↔
     x ∈ m ∨ ∃ b, (b, true) ∈ results ∧ x ∈ b) ∧
  (x ∈ (foldl merge_step (m, n) results).2 ↔
     x ∈ n ∨ ∃ b, (b, false) ∈ results ∧ x ∈ b).
Proof.
  revert m n. induction results as [|[b found] results IH]; intros m n.
  - simpl. split; (split; [by left|]);
      by intros [?|(? & ?%elem_of_nil & _)].
  - simpl. destruct found; simpl.
    + destruct (IH (m ∪ b) n) as [IH1 IH2]. rewrite IH1, IH2.
      split; [set_solver|]. split.
      * intros [?|(b' & ? & ?)]; [by left|right].
        exists b'. split; [by right|done].
      * intros [?|(b' & [[= _]|?]%elem_of_cons & ?)]; [by left|right].
        by exists b'.
    + destruct (IH m (n ∪ b)) as [IH1 IH2]. rewrite IH1, IH2.
      split; [|set_solver]. split.
      * intros [?|(b' & ? & ?)]; [by left|right].
        exists b'. split; [by right|done].
      * intros [?|(b' & [[= _]|?]%elem_of_cons & ?)]; [by left|right].
        by exists b'.
Qed.

Lemma elem_of_mirrored (results : list (gset string * bool)) (x : string) :
  x ∈ (merge_results results).1 ↔ ∃ b, (b, true) ∈ results ∧ x ∈ b.
Proof.
  unfold merge_results. rewrite (proj1 (merge_from_spec results ∅ ∅ x)).
  set_solver.
Qed.

Lemma elem_of_no_output (results : list (gset string * bool)) (x : string) :
  x ∈ (merge_results results).2 ↔ ∃ b, (b, false) ∈ results ∧ x ∈ b.
Proof.
  unfold merge_results. rewrite (proj2 (merge_from_spec results ∅ ∅ x)).
  set_solver.
Qed.

(** The strings added to the failure set are its elements. *)
Lemma elem_of_no_output_history (results : list (gset string * bool))
    (x : string) :
  x ∈ no_output_history results ↔ x ∈ (merge_results results).2.
Proof.
  rewrite elem_of_no_output. unfold no_output_history.
  induction results as [|[b found] results IH].
  - split; [intros Hx%elem_of_nil|intros (b & Hin%elem_of_nil & _)];
      by destruct_and?.
  - cbn [fmap list_fmap concat]. rewrite elem_of_app, IH. simpl. split.
    + intros [Hx|(b' & Hin & Hx)].
      * destruct found; [by apply elem_of_nil in Hx|].
        exists b. split; [by left|]. by apply elem_of_elements.
      * exists b'. split; [by right|exact Hx].
    + intros (b' & [[= -> <-]|Hin]%elem_of_cons & Hx).
      * left. by apply elem_of_elements.
      * right. by exists b'.
Qed.

(** The names of the aggregate error: the failure set, in the order of
    the interpreter. *)
Lemma set_order_no_output (h : Host) (results : list (gset string * bool)) :
  set_order h (no_output_history results)
    ≡ₚ elements (merge_results results).2.
Proof.
  destruct (set_order_spec h (no_output_history results)) as [Hnodup Hin].
  apply NoDup_Permutation; [exact Hnodup|apply NoDup_elements|].
  intros x. by rewrite Hin, elem_of_no_output_history, elem_of_elements.
Qed.

(** The failure set of a pass that ran every task: the input builders whose
    live query came back empty. *)
Lemma no_output_builders_spec (h : Host) (cis : list string) (w w' : World)
    (results : list (gset string * bool)) (b : string) :
  pool_map (_GetMirroredBuildersForCiBuilder h) cis w = (w', Return results) →
  b ∈ (merge_results results).2 ↔
  b ∈ cis ∧ queried_live b ∧ bb_ls_get h (bb_target b) = Return EmptyString.
Proof.
  intros Hall%pool_map_returns. rewrite elem_of_no_output. split.
  - intros (bs & Hin & Hb).
    apply list_elem_of_lookup in Hin as [i Hi].
    destruct (Forall2_lookup_r _ _ _ _ _ Hall Hi) as (ci & Hci & Hres).
    apply resolution_not_found in Hres as (Hlive & Hout & ->).
    apply elem_of_singleton in Hb as ->.
    split; [eapply list_elem_of_lookup_2; eassumption|].
    split; assumption.
  - intros (Hin & Hlive & Hout).
    apply list_elem_of_lookup in Hin as [i Hi].
    destruct (Forall2_lookup_l _ _ _ _ _ Hall Hi) as (r & Hr & Hres).
    pose proof (proj2 (resolution_not_found h b {[b]})
                  (conj Hlive (conj Hout eq_refl))) as Hb.
    rewrite Hb in Hres. injection Hres as <-. clear Hb.
    exists {[b]}. split; [eapply list_elem_of_lookup_2; eassumption|].
    by apply elem_of_singleton.
Qed.

(** ** The accounting of a resolution pass *)

(** C1, as amended.  When every task of the pass returns, each input CI
    builder has exactly one task result, and that result puts it on exactly
    one side: either it is marked resolved, its try builders (there may be
    none) are all in the merged set and it is absent from the failure set,
    or it is marked unresolved and it is itself in the failure set. *)
Theorem every_builder_resolved_or_recorded (h : Host) (w w' : World)
    (cis : list string) (results : list (gset string * bool)) :
  pool_map (_GetMirroredBuildersForCiBuilder h) cis w = (w', Return results) →
  ∀ i ci, cis !! i = Some ci →
    ∃ r, results !! i = Some r ∧
      ((r.2 = true ∧ r.1 ⊆ (merge_results results).1 ∧
        ci ∉ (merge_results results).2) ∨
       (r.2 = false ∧ r.1 = {[ci]} ∧ ci ∈ (merge_results results).2)).
Proof.
  intros Hmap i ci Hi.
  pose proof (pool_map_returns _ _ _ _ _ Hmap) as Hall.
  destruct (Forall2_lookup_l _ _ _ _ _ Hall Hi) as ([bs found] & Hr & Hres).
  exists (bs, found). split; [assumption|]. simpl. destruct found.
  - left. split; [reflexivity|]. split.
    + intros x Hx. apply elem_of_mirrored. exists bs.
      split; [eapply list_elem_of_lookup_2; eassumption|assumption].
    + rewrite (no_output_builders_spec _ _ _ _ _ _ Hmap).
      intros (_ & Hlive & Hout).
      pose proof (proj2 (resolution_not_found h ci {[ci]})
                    (conj Hlive (conj Hout eq_refl))) as Hci.
      rewrite Hci in Hres. injection Hres as _ Hf. discriminate Hf.
  - right. apply resolution_not_found in Hres as (Hlive & Hout & ->).
    split; [reflexivity|]. split; [reflexivity|].
    apply (no_output_builders_spec _ _ _ _ _ _ Hmap).
    split; [eapply list_elem_of_lookup_2; eassumption|].
    split; assumption.
Qed.

(** ** The live query *)

Section live_query.
Context (h : Host).
Implicit Types (w : World) (ci out : string).

Lemma resolution_queried ci :
  queried_live ci →
  resolution h ci =
    (bb_output <- bb_ls_get h (bb_target ci);;
     if String.eqb bb_output EmptyString then Return ({[ci]}, false)
     else mirrors_of_output h bb_output).
Proof.
  intros [Hnon Hfake]. unfold resolution.
  rewrite (bool_decide_eq_false_2 _ Hnon), Hfake. reflexivity.
Qed.

(** A live query that answers [out], seen from the caller. *)
Lemma resolve_answered ci w out :
  queried_live ci → can_query h w →
  bb_ls_get h (bb_target ci) = Return out → out ≠ EmptyString →
  (_GetMirroredBuildersForCiBuilder h ci w).2 = mirrors_of_output h out.
Proof.
  intros Hlive Hq Hout Hne.
  rewrite (resolve_can_query h ci w Hq), (resolution_queried ci Hlive), Hout.
  simpl. apply String.eqb_neq in Hne. rewrite Hne. reflexivity.
Qed.

Lemma mirrors_of_output_field out bb_json mirrored :
  json_decode h out = Some bb_json →
  mirrored_field bb_json = Return mirrored →
  mirrors_of_output h out =
    (mirrors <- py_iter mirrored;;
     mirrored_builders <- add_mirrors mirrors ∅;;
     Return (mirrored_builders, true)).
Proof.
  intros Hdec Hfield. unfold mirrors_of_output, json_loads.
  rewrite Hdec. simpl. rewrite Hfield. reflexivity.
Qed.
End live_query.

Lemma lacks_mirrors_field (bb_json : json) :
  lacks_mirrors bb_json → mirrored_field bb_json = Return (JArr []).
Proof.
  intros (top & -> & Htop). unfold mirrored_field. simpl.
  destruct Htop as [->|(output & -> & Hout)]; [reflexivity|]. simpl.
  destruct Hout as [->|(properties & -> & Hprop)]; [reflexivity|]. simpl.
  destruct Hprop as [->| ->]; reflexivity.
Qed.

(** Entries of the form [group:name] are all accepted, and each adds its
    name. *)
Lemma add_mirrors_entries (pairs : list (string * string)) (acc : gset string) :
  Forall (λ p, colon_free p.1 ∧ colon_free p.2) pairs →
  add_mirrors (mirror_entry <$> pairs) acc
    = Return (list_to_set pairs.*2 ∪ acc).
Proof.
  intros Hpairs. revert acc.
  induction Hpairs as [|[group name] pairs [Hg Hn] _ IH]; intros acc.
  - simpl. f_equal. set_solver.
  - simpl. rewrite (split_group_name ":" group name Hg Hn). simpl.
    rewrite IH. f_equal. set_solver.
Qed.

(** A string entry with no colon, or with more than one, stops the loop
    with the assertion when only strings come before it, whatever comes
    after it. *)
Lemma add_mirrors_asserts (before : list json) (bad : string)
    (after : list json) (acc : gset string) :
  Forall (λ e, ∃ s, e = JStr s) before →
  count_char ":" bad ≠ 1 →
  add_mirrors (before ++ JStr bad :: after) acc = Raise AssertionError.
Proof.
  intros Hstr Hbad. revert acc.
  induction Hstr as [|e before [s ->] _ IH]; intros acc; simpl.
  - pose proof (split_length ":" bad) as Hlen.
    destruct (split ":" bad) as [|a [|b [|c parts]]];
      [reflexivity|reflexivity| |reflexivity].
    simpl in Hlen. lia.
  - destruct (split ":" s) as [|a [|b [|c parts]]];
      [reflexivity|reflexivity|apply IH|reflexivity].
Qed.


(** C8.  A non-empty query output that decodes to an object from which
    ['output'], ['properties'] or ['mirrored_builders'] is missing, or whose
    [mirrored_builders] list is empty, resolves the builder with no try
    builder, and no pass records the builder in its failure set. *)
Theorem missing_mirrors_resolve_empty (h : Host) (w : World)
    (ci out : string) (bb_json : json) :
  queried_live ci → can_query h w →
  bb_ls_get h (bb_target ci) = Return out → out ≠ EmptyString →
  json_decode h out = Some bb_json → lacks_mirrors bb_json →
  (_GetMirroredBuildersForCiBuilder h ci w).2 = Return (∅, true) ∧
  ∀ cis w0 w' results,
    pool_map (_GetMirroredBuildersForCiBuilder h) cis w0
      = (w', Return results) →
    ci ∉ (merge_results results).2.
Proof.
  intros Hlive Hq Hout Hne Hdec Hlacks. split.
  - rewrite (resolve_answered h ci w out Hlive Hq Hout Hne).
    rewrite (mirrors_of_output_field h out bb_json _ Hdec
               (lacks_mirrors_field _ Hlacks)).
    reflexivity.
  - intros cis w0 w' results Hmap.
    rewrite (no_output_builders_spec _ _ _ _ _ _ Hmap).
    intros (_ & _ & Hempty). rewrite Hout in Hempty.
    injection Hempty as ->. by apply Hne.
Qed.

(** C7.  When the [mirrored_builders] list of the response consists of
    entries [<group>:<builder-name>], the resolution returns exactly the set
    of the builder names, each without its group and colon, marked
    resolved. *)
Theorem mirror_names_extracted (h : Host) (w : World) (ci out : string)
    (bb_json : json) (pairs : list (string * string)) :
  queried_live ci → can_query h w →
  bb_ls_get h (bb_target ci) = Return out → out ≠ EmptyString →
  json_decode h out = Some bb_json →
  mirrored_field bb_json = Return (JArr (mirror_entry <$> pairs)) →
  Forall (λ p, colon_free p.1 ∧ colon_free p.2) pairs →
  (_GetMirroredBuildersForCiBuilder h ci w).2
    = Return (list_to_set pairs.*2, true).
Proof.
  intros Hlive Hq Hout Hne Hdec Hfield Hpairs.
  rewrite (resolve_answered h ci w out Hlive Hq Hout Hne).
  rewrite (mirrors_of_output_field h out bb_json _ Hdec Hfield). simpl.
  rewrite (add_mirrors_entries pairs ∅ Hpairs). simpl.
  do 2 f_equal. set_solver.
Qed.

(** C9.  When the [mirrored_builders] list has an entry with no colon or
    with more than one, and the loop gets to it (the entries before it are
    strings), the assertion of the extraction loop fails: the resolution
    raises [AssertionError], and so does the pass over that builder,
    instead of skipping the entry or recording the builder. *)
Theorem malformed_mirror_fails_assertion (h : Host) (w : World)
    (ci out : string) (bb_json : json) (before : list json) (bad : string)
    (after : list json) :
  queried_live ci → can_query h w →
  bb_ls_get h (bb_target ci) = Return out → out ≠ EmptyString →
  json_decode h out = Some bb_json →
  mirrored_field bb_json = Return (JArr (before ++ JStr bad :: after)) →
  Forall (λ e, ∃ s, e = JStr s) before →
  count_char ":" bad ≠ 1 →
  (_GetMirroredBuildersForCiBuilder h ci w).2 = Raise AssertionError ∧
  (GetTryBuilders h [ci] w).2 = Raise AssertionError.
Proof.
  intros Hlive Hq Hout Hne Hdec Hfield Hstr Hbad.
  assert ((_GetMirroredBuildersForCiBuilder h ci w).2 = Raise AssertionError)
    as Hraise.
  { rewrite (resolve_answered h ci w out Hlive Hq Hout Hne).
    rewrite (mirrors_of_output_field h out bb_json _ Hdec Hfield). simpl.
    rewrite (add_mirrors_asserts before bad after ∅ Hstr Hbad).
    reflexivity. }
  split; [exact Hraise|].
  unfold GetTryBuilders. simpl. unfold sbind.
  destruct (_GetMirroredBuildersForCiBuilder h ci w) as [w1 r].
  simpl in Hraise. rewrite Hraise. reflexivity.
Qed.

(** ** The static override table *)

Lemma overridden_cases (ci : string) :
  overridden_try_builders ci ≠ [] → ci ∈ concat FAKE_TRY_BUILDERS.*2.
Proof.
  unfold overridden_try_builders. generalize FAKE_TRY_BUILDERS.
  intros table. induction table as [|[try_builder cis] table IH]; [done|].
  rewrite filter_cons. simpl. intros Hne. apply elem_of_app.
  destruct (decide (ci ∈ cis)); [by left|right]. by apply IH.
Qed.

(** The inverted map knows exactly the CI builders the table lists, each
    with the one try builder that lists it. *)
Lemma FAKE_CI_BUILDERS_inverts (ci try_builder : string) :
  FAKE_CI_BUILDERS !! ci = Some try_builder ↔
  overridden_try_builders ci = [try_builder].
Proof.
  split.
  - intros Hin%elem_of_map_to_list.
    vm_compute in Hin.
    repeat (apply elem_of_cons in Hin as [[= -> ->]|Hin];
            [vm_compute; reflexivity|]).
    by apply elem_of_nil in Hin.
  - intros Heq.
    assert (overridden_try_builders ci ≠ []) as Hne by (rewrite Heq; discriminate).
    apply overridden_cases in Hne. unfold FAKE_TRY_BUILDERS in Hne.
    simpl in Hne.
    repeat (apply elem_of_cons in Hne as [->|Hne];
            [vm_compute in Heq; injection Heq as <-; vm_compute; reflexivity|]).
    by apply elem_of_nil in Hne.
Qed.

Lemma overridden_lookup (ci : string) :
  overridden_try_builders ci ≠ [] →
  ∃ try_builder,
    bool_decide (ci ∈ NON_CHROMIUM_BUILDERS) = false ∧
    FAKE_CI_BUILDERS !! ci = Some try_builder ∧
    overridden_try_builders ci = [try_builder].
Proof.
  intros Hne. apply overridden_cases in Hne.
  unfold FAKE_TRY_BUILDERS in Hne. simpl in Hne.
  repeat (apply elem_of_cons in Hne as [->|Hne];
          [eexists; split; [|split]; vm_compute; reflexivity|]).
  by apply elem_of_nil in Hne.
Qed.

(** C4.  A CI builder the static table lists is resolved to exactly the
    try builders the table gives for it, marked resolved, on every host and
    in every state, and the state is left as it was: nothing is spawned, so
    no live query takes place. *)
Theorem static_override_takes_precedence (h : Host) (w : World) (ci : string) :
  overridden_try_builders ci ≠ [] →
  _GetMirroredBuildersForCiBuilder h ci w
    = (w, Return (list_to_set (overridden_try_builders ci), true)).
Proof.
  intros (try_builder & Hnon & Hfake & ->)%overridden_lookup.
  unfold _GetMirroredBuildersForCiBuilder. rewrite Hnon, Hfake.
  unfold sret. do 3 f_equal. simpl. symmetry. apply (right_id_L ∅ (∪)).
Qed.

(** ** The properties on concrete passes *)

(** The unresolved builder of the three-tier pass is on the failure side
    only. *)
Lemma every_builder_resolved_or_recorded_witness :
  ∃ r, three_tiers_results !! 1 = Some r ∧
    ((r.2 = true ∧ r.1 ⊆ (merge_results three_tiers_results).1 ∧
      "my-ci-builder" ∉ (merge_results three_tiers_results).2) ∨
     (r.2 = false ∧ r.1 = {["my-ci-builder"]} ∧
      "my-ci-builder" ∈ (merge_results three_tiers_results).2)).
Proof.
  apply (every_builder_resolved_or_recorded silent_host initial_world
           after_one_query three_tiers three_tiers_results);
    [by_evaluation|reflexivity].
Defined.

Lemma auth_ok_can_query (h : Host) (w : World) :
  bb_auth_info h = true → can_query h w.
Proof. by right. Qed.

Lemma my_ci_builder_queried : queried_live "my-ci-builder".
Proof. split; by_evaluation. Qed.

Lemma bb_host_decodes (out : string) (doc : option json) :
  json_decode (bb_host out doc) out = doc.
Proof. simpl. by rewrite String.eqb_refl. Qed.

(** C1, the strict reading refuted: a non-Chromium builder is resolved
    with no try builder, so it contributes nothing and is not in the
    failure set either. *)
Lemma excluded_builder_in_neither_output :
  ¬ every_builder_in_exactly_one_output bare_host initial_world
      ["Win V8 FYI Release (NVIDIA)"].
Proof.
  intros Hclaim.
  destruct (Hclaim initial_world [(∅, true)] ltac:(by_evaluation)
              0 _ _ eq_refl eq_refl) as [[[_ Hne] _]|[_ Hin]].
  - apply Hne. reflexivity.
  - apply elem_of_no_output in Hin as (b & Hb & _).
    apply list_elem_of_singleton in Hb. discriminate Hb.
Qed.



(** The override of a listed builder, on a host whose [bb] answers
    garbage. *)
Lemma static_override_takes_precedence_witness :
  _GetMirroredBuildersForCiBuilder garbled_host
    "ANGLE GPU Linux Release (NVIDIA)" initial_world
    = (initial_world,
       Return (list_to_set
                 (overridden_try_builders "ANGLE GPU Linux Release (NVIDIA)"),
               true)).
Proof.
  apply (static_override_takes_precedence garbled_host initial_world
           "ANGLE GPU Linux Release (NVIDIA)").
  vm_compute. discriminate.
Defined.

(** A record whose properties have no [mirrored_builders]. *)
Lemma missing_mirrors_resolve_empty_witness :
  (_GetMirroredBuildersForCiBuilder no_mirrors_host "my-ci-builder"
     initial_world).2 = Return (∅, true) ∧
  ∀ cis w0 w' results,
    pool_map (_GetMirroredBuildersForCiBuilder no_mirrors_host) cis w0
      = (w', Return results) →
    "my-ci-builder" ∉ (merge_results results).2.
Proof.
  apply (missing_mirrors_resolve_empty no_mirrors_host initial_world
           "my-ci-builder" no_mirrors_text no_mirrors_json
           my_ci_builder_queried
           (auth_ok_can_query no_mirrors_host initial_world eq_refl) eq_refl).
  - by_evaluation.
  - apply bb_host_decodes.
  - eexists. split; [reflexivity|]. right.
    eexists. split; [reflexivity|]. right.
    eexists. split; [reflexivity|]. left. reflexivity.
Defined.

(** The mirror [tryserver.chromium.linux:my-try-builder] yields
    [my-try-builder]. *)
Lemma mirror_names_extracted_witness :
  (_GetMirroredBuildersForCiBuilder
     (response_host ["tryserver.chromium.linux:my-try-builder"])
     "my-ci-builder" initial_world).2
    = Return (list_to_set ["my-try-builder"], true).
Proof.
  apply (mirror_names_extracted
           (response_host ["tryserver.chromium.linux:my-try-builder"])
           initial_world "my-ci-builder"
           (response_text ["tryserver.chromium.linux:my-try-builder"])
           (response_json ["tryserver.chromium.linux:my-try-builder"])
           [("tryserver.chromium.linux", "my-try-builder")]
           my_ci_builder_queried
           (auth_ok_can_query
              (response_host ["tryserver.chromium.linux:my-try-builder"])
              initial_world eq_refl)
           eq_refl).
  - by_evaluation.
  - apply bb_host_decodes.
  - reflexivity.
  - repeat constructor.
Defined.

(** A mirror without a colon after a regular one. *)
Lemma malformed_mirror_fails_assertion_witness :
  (_GetMirroredBuildersForCiBuilder (response_host two_mirrors)
     "my-ci-builder" initial_world).2 = Raise AssertionError ∧
  (GetTryBuilders (response_host two_mirrors)
     ["my-ci-builder"] initial_world).2 = Raise AssertionError.
Proof.
  apply (malformed_mirror_fails_assertion
           (response_host two_mirrors) initial_world "my-ci-builder"
           (response_text two_mirrors) (response_json two_mirrors)
           [JStr "tryserver.chromium.linux:my-try-builder"] "no-colon" []
           my_ci_builder_queried
           (auth_ok_can_query (response_host two_mirrors) initial_world
              eq_refl)
           eq_refl).
  - by_evaluation.
  - apply bb_host_decodes.
  - reflexivity.
  - repeat constructor. by eexists.
  - vm_compute. lia.
Defined.

(** ** Listing the CI builders *)

Section listing.
Context (h : Host) (suite : string).
Implicit Types (acc : gset string) (files : list string).

Lemma scan_builders_cons builder test_map rest acc :
  scan_builders suite ((builder, test_map) :: rest) acc =
    if excluded_name builder then scan_builders suite rest acc
    else
      runs <- (tests <- py_get test_map "isolated_scripts" (JArr []);;
               _SuiteInTests suite tests);;
      if negb runs then scan_builders suite rest acc
      else scan_builders suite rest ({[builder]} ∪ acc).
Proof.
  simpl. unfold excluded_name.
  destruct (_ || _); [reflexivity|].
  destruct (py_get test_map _ _); reflexivity.
Qed.

Lemma scan_files_cons file rest acc :
  scan_files h suite (file :: rest) acc =
    if negb (endswith file ".json") then scan_files h suite rest acc
    else
      buildbot_json <- file_json h file;;
      marked <- py_contains AUTOGENERATED_JSON_KEY buildbot_json;;
      if negb marked then scan_files h suite rest acc
      else
        items <- py_iteritems buildbot_json;;
        acc' <- scan_builders suite items acc;;
        scan_files h suite rest acc'.
Proof.
  simpl. destruct (negb _); [reflexivity|]. unfold file_json.
  destruct (read_file h file); reflexivity.
Qed.

Lemma scan_files_app files1 files2 acc :
  scan_files h suite (files1 ++ files2) acc =
    (acc' <- scan_files h suite files1 acc;;
     scan_files h suite files2 acc').
Proof.
  revert acc. induction files1 as [|file files1 IH]; intros acc.
  - reflexivity.
  - rewrite <-app_comm_cons, !scan_files_cons.
    destruct (negb _); [apply IH|].
    destruct (file_json h file) as [j|]; [|reflexivity]. simpl.
    destruct (py_contains _ j) as [[]|]; simpl; [|apply IH|reflexivity].
    destruct (py_iteritems j); [|reflexivity]. simpl.
    destruct (scan_builders _ _ _); [apply IH|reflexivity].
Qed.

Lemma existsb_json_eq_str (args : list json) :
  existsb (json_eq_str suite) args = true ↔ JStr suite ∈ args.
Proof.
  rewrite existsb_exists. split.
  - intros (x & Hin%list_elem_of_In & Hx).
    destruct x; try discriminate Hx.
    simpl in Hx. apply String.eqb_eq in Hx as <-. exact Hin.
  - intros Hin. exists (JStr suite). split; [by apply list_elem_of_In|].
    simpl. apply String.eqb_refl.
Qed.

(** On well-formed records the loop of [_SuiteInTests] returns, and it
    returns [True] exactly when some record runs the suite. *)
Lemma suite_in_records_wf (tests : list json) :
  Forall wf_record tests →
  ∃ b, suite_in_records suite tests = Return b ∧
       (b = true ↔ ∃ t, t ∈ tests ∧ record_runs suite t).
Proof.
  induction 1 as [|t tests (items & isolate & args & -> & Hiso & Hargs)
                    _ (b & IHrun & IHb)].
  - exists false. split; [reflexivity|]. split; [discriminate|].
    intros (t & Hin%elem_of_nil & _). destruct Hin.
  - assert (record_runs suite (JObj items) ↔
            isolate ∈ GPU_TELEMETRY_ISOLATES ∧ JStr suite ∈ args) as Hruns.
    { split.
      - intros (items' & isolate' & args' & [= <-] & Hiso' & Hargs' & Hr).
        rewrite Hiso in Hiso'. rewrite Hargs in Hargs'.
        injection Hiso' as <-. injection Hargs' as <-. exact Hr.
      - intros [Hin Harg]. exists items, isolate, args.
        repeat split; assumption. }
    simpl. rewrite Hiso, Hargs. simpl.
    destruct (bool_decide (isolate ∈ GPU_TELEMETRY_ISOLATES)) eqn:Hknown;
      simpl; [destruct (existsb (json_eq_str suite) args) eqn:Harg|].
    + exists true. split; [reflexivity|]. split; [intros _|reflexivity].
      exists (JObj items). split; [left|]. apply Hruns.
      split; [by apply bool_decide_eq_true in Hknown|].
      by apply existsb_json_eq_str.
    + exists b. split; [exact IHrun|]. rewrite IHb. split.
      * intros (t & Hin & Ht). exists t. split; [by right|exact Ht].
      * intros (t & [->|Hin]%elem_of_cons & Ht); [|by exists t].
        apply Hruns in Ht as [_ Ht%existsb_json_eq_str].
        rewrite Ht in Harg. discriminate Harg.
    + exists b. split; [exact IHrun|]. rewrite IHb. split.
      * intros (t & Hin & Ht). exists t. split; [by right|exact Ht].
      * intros (t & [->|Hin]%elem_of_cons & Ht); [|by exists t].
        apply Hruns in Ht as [Ht _].
        apply (bool_decide_eq_true_2 _) in Ht.
        rewrite Ht in Hknown. discriminate Hknown.
Qed.

Lemma SuiteInTests_wf (test_map : json) :
  wf_test_map test_map →
  ∃ b, (tests <- py_get test_map "isolated_scripts" (JArr []);;
        _SuiteInTests suite tests) = Return b ∧
       (b = true ↔ test_map_runs suite test_map).
Proof.
  intros (items & -> & [Hnone|(tests & Hsome & Hwf)]).
  - exists false. simpl. rewrite Hnone. split; [reflexivity|].
    split; [discriminate|].
    intros (items' & tests & t & [= <-] & Hsome & _).
    rewrite Hnone in Hsome. discriminate Hsome.
  - destruct (suite_in_records_wf tests Hwf) as (b & Hrun & Hb).
    exists b. simpl. rewrite Hsome. split; [exact Hrun|].
    rewrite Hb. split.
    + intros (t & Hin & Ht). by exists items, tests, t.
    + intros (items' & tests' & t & [= <-] & Hsome' & Hin & Ht).
      rewrite Hsome in Hsome'. injection Hsome' as <-. by exists t.
Qed.
End listing.

Section scanning.
Context (h : Host) (suite : string).
Implicit Types (acc S : gset string) (files : list string).

(** On well-formed entries the inner loop returns the accumulator
    extended by the entries that pass the name filter and run the
    suite. *)
Lemma scan_builders_wf (items : list (string * json)) acc :
  (∀ builder test_map,
     (builder, test_map) ∈ items → excluded_name builder = false →
     wf_test_map test_map) →
  ∃ S, scan_builders suite items acc = Return S ∧
    ∀ b, b ∈ S ↔
      b ∈ acc ∨
      (excluded_name b = false ∧
       ∃ test_map, (b, test_map) ∈ items ∧ test_map_runs suite test_map).
Proof.
  revert acc. induction items as [|[builder tm] items IH]; intros acc Hwf.
  - exists acc. split; [reflexivity|]. intros b. split; [by left|].
    intros [Hb|(_ & tm & Hin%elem_of_nil & _)]; [exact Hb|destruct Hin].
  - rewrite scan_builders_cons.
    assert (∀ builder test_map,
              (builder, test_map) ∈ items → excluded_name builder = false →
              wf_test_map test_map) as Hwf'.
    { intros b tm' Hin. apply Hwf. by right. }
    destruct (excluded_name builder) eqn:Hex.
    { destruct (IH acc Hwf') as (S & Hscan & HS).
      exists S. split; [exact Hscan|]. intros b. rewrite HS. split.
      - intros [Hb|(Hb & tm' & Hin & Hruns)]; [by left|right].
        split; [exact Hb|]. exists tm'. split; [by right|exact Hruns].
      - intros [Hb|(Hb & tm' & [[= -> ->]|Hin]%elem_of_cons & Hruns)];
          [by left| |right].
        + rewrite Hb in Hex. discriminate Hex.
        + split; [exact Hb|]. by exists tm'. }
    destruct (SuiteInTests_wf suite tm) as (runs & -> & Hruns).
    { apply (Hwf builder tm); [by left|exact Hex]. }
    simpl. destruct runs; simpl.
    + destruct (IH ({[builder]} ∪ acc) Hwf') as (S & Hscan & HS).
      exists S. split; [exact Hscan|]. intros b. rewrite HS. split.
      * intros [[->%elem_of_singleton|Hb]%elem_of_union
               |(Hb & tm' & Hin & Hr)].
        -- right. split; [exact Hex|]. exists tm.
           split; [by left|by apply Hruns].
        -- by left.
        -- right. split; [exact Hb|]. exists tm'. split; [by right|exact Hr].
      * intros [Hb|(Hb & tm' & [[= -> ->]|Hin]%elem_of_cons & Hr)].
        -- left. apply elem_of_union. by right.
        -- left. apply elem_of_union. left. by apply elem_of_singleton.
        -- right. split; [exact Hb|]. by exists tm'.
    + destruct (IH acc Hwf') as (S & Hscan & HS).
      exists S. split; [exact Hscan|]. intros b. rewrite HS. split.
      * intros [Hb|(Hb & tm' & Hin & Hr)]; [by left|right].
        split; [exact Hb|]. exists tm'. split; [by right|exact Hr].
      * intros [Hb|(Hb & tm' & [[= -> ->]|Hin]%elem_of_cons & Hr)];
          [by left| |right].
        -- apply Hruns in Hr. discriminate Hr.
        -- split; [exact Hb|]. by exists tm'.
Qed.

(** Whatever the entries look like, a name the filter rejects is never
    added. *)
Lemma scan_builders_excludes (items : list (string * json)) acc S :
  scan_builders suite items acc = Return S →
  ∀ b, b ∈ S → b ∈ acc ∨ excluded_name b = false.
Proof.
  revert acc. induction items as [|[builder tm] items IH]; intros acc.
  - intros [= <-] b Hb. by left.
  - rewrite scan_builders_cons.
    destruct (excluded_name builder) eqn:Hex; [apply IH|].
    destruct (tests <- py_get tm "isolated_scripts" (JArr []);;
              _SuiteInTests suite tests) as [[]|];
      simpl; [|apply IH|discriminate].
    intros Hscan b Hb.
    destruct (IH _ Hscan b Hb) as [[->%elem_of_singleton|Hacc]%elem_of_union
                                  |Hname].
    + by right.
    + by left.
    + by right.
Qed.

Lemma scan_files_excludes files acc S :
  scan_files h suite files acc = Return S →
  ∀ b, b ∈ S → b ∈ acc ∨ excluded_name b = false.
Proof.
  revert acc. induction files as [|file files IH]; intros acc.
  - intros [= <-] b Hb. by left.
  - rewrite scan_files_cons. destruct (negb _); [apply IH|].
    destruct (file_json h file) as [j|]; [|discriminate]. simpl.
    destruct (py_contains _ j) as [[]|]; simpl; [|apply IH|discriminate].
    destruct (py_iteritems j) as [items|]; [|discriminate]. simpl.
    destruct (scan_builders suite items acc) as [acc'|] eqn:Hitems;
      [|discriminate].
    simpl. intros Hscan b Hb.
    destruct (IH _ Hscan b Hb) as [Hacc|Hname]; [|by right].
    by eapply scan_builders_excludes.
Qed.
End scanning.

Section directory.
Context (h : Host) (suite : string).
Implicit Types (acc S : gset string) (files : list string).

Lemma wf_directory_tail file files :
  wf_directory h (file :: files) → wf_directory h files.
Proof. intros Hwf f Hin. apply Hwf. by right. Qed.

Lemma listed_tail file files b test_map :
  listed h files b test_map → listed h (file :: files) b test_map.
Proof.
  intros (f & items & Hin & Hrest). exists f, items.
  split; [by right|exact Hrest].
Qed.

(** On a well-formed directory the outer loop returns the accumulator
    extended by the listed builders that pass the name filter and run
    the suite. *)
Lemma scan_files_wf files acc :
  wf_directory h files →
  ∃ S, scan_files h suite files acc = Return S ∧
    ∀ b, b ∈ S ↔
      b ∈ acc ∨
      (excluded_name b = false ∧
       ∃ test_map, listed h files b test_map ∧
                   test_map_runs suite test_map).
Proof.
  revert acc. induction files as [|file files IH]; intros acc Hwf.
  - exists acc. split; [reflexivity|]. intros b. split; [by left|].
    intros [Hb|(_ & tm & (f & items & Hin%elem_of_nil & _) & _)];
      [exact Hb|destruct Hin].
  - pose proof (wf_directory_tail _ _ Hwf) as Hwf'.
    rewrite scan_files_cons.
    destruct (endswith file ".json") eqn:Hext; simpl.
    2:{ destruct (IH acc Hwf') as (S & Hscan & HS).
        exists S. split; [exact Hscan|]. intros b. rewrite HS. split.
        - intros [Hb|(Hb & tm & Hl & Hr)]; [by left|right].
          split; [exact Hb|]. exists tm. split; [|exact Hr].
          by apply listed_tail.
        - intros [Hb|(Hb & tm & (f & items & Hin & Hf & Hrest) & Hr)];
            [by left|right].
          apply elem_of_cons in Hin as [->|Hin].
          { rewrite Hf in Hext. discriminate Hext. }
          split; [exact Hb|]. exists tm. split; [|exact Hr].
          by exists f, items. }
    destruct (Hwf file) as (items & Hjson & Hitems); [by left|exact Hext|].
    rewrite Hjson. simpl.
    destruct (bool_decide (is_Some (assoc_get AUTOGENERATED_JSON_KEY items)))
      eqn:Hmarked; simpl.
    2:{ destruct (IH acc Hwf') as (S & Hscan & HS).
        exists S. split; [exact Hscan|]. intros b. rewrite HS. split.
        - intros [Hb|(Hb & tm & Hl & Hr)]; [by left|right].
          split; [exact Hb|]. exists tm. split; [|exact Hr].
          by apply listed_tail.
        - intros [Hb|(Hb & tm & (f & items' & Hin & Hf & Hj & Hk & Hrest)
                      & Hr)]; [by left|right].
          apply elem_of_cons in Hin as [->|Hin].
          { rewrite Hjson in Hj. injection Hj as <-.
            apply (bool_decide_eq_true_2 _) in Hk.
            rewrite Hk in Hmarked. discriminate Hmarked. }
          split; [exact Hb|]. exists tm. split; [|exact Hr].
          by exists f, items'. }
    apply bool_decide_eq_true in Hmarked.
    destruct (scan_builders_wf suite items acc (Hitems Hmarked))
      as (S1 & -> & HS1).
    simpl. destruct (IH S1 Hwf') as (S & Hscan & HS).
    exists S. split; [exact Hscan|]. intros b. rewrite HS, HS1. split.
    + intros [[Hb|(Hb & tm & Hin & Hr)]|(Hb & tm & Hl & Hr)].
      * by left.
      * right. split; [exact Hb|]. exists tm. split; [|exact Hr].
        exists file, items. split; [by left|]. by repeat split.
      * right. split; [exact Hb|]. exists tm. split; [|exact Hr].
        by apply listed_tail.
    + intros [Hb|(Hb & tm & (f & items' & Hin & Hf & Hj & Hk & Hrest) & Hr)].
      * left. by left.
      * apply elem_of_cons in Hin as [->|Hin].
        -- rewrite Hjson in Hj. injection Hj as <-.
           left. right. split; [exact Hb|]. by exists tm.
        -- right. split; [exact Hb|]. exists tm. split; [|exact Hr].
           by exists f, items'.
Qed.

Lemma scan_files_with_listdir listing files acc :
  scan_files (with_listdir h listing) suite files acc
    = scan_files h suite files acc.
Proof.
  revert acc. induction files as [|file files IH]; intros acc.
  - reflexivity.
  - simpl. destruct (negb _); [apply IH|].
    destruct (read_file h file) as [text|]; [|reflexivity]. simpl.
    change (json_loads (with_listdir h listing) text)
      with (json_loads h text).
    destruct (json_loads h text) as [j|]; [|reflexivity]. simpl.
    destruct (py_contains _ j) as [[]|]; simpl; [|apply IH|reflexivity].
    destruct (py_iteritems j); [|reflexivity]. simpl.
    destruct (scan_builders _ _ _); [apply IH|reflexivity].
Qed.
End directory.

Lemma excluded_name_spec (builder : string) :
  excluded_name builder = true ↔
  occurs_in "Builder" builder ∨ occurs_in "AAAA" builder.
Proof.
  unfold excluded_name.
  rewrite orb_true_iff, !str_contains_spec. reflexivity.
Qed.

Lemma not_excluded_name_spec (builder : string) :
  excluded_name builder = false ↔
  ¬ (occurs_in "Builder" builder ∨ occurs_in "AAAA" builder).
Proof.
  rewrite <-excluded_name_spec. destruct (excluded_name builder).
  - split; [discriminate|]. intros Hne. by destruct Hne.
  - split; [discriminate|reflexivity].
Qed.

(** C5, as amended.  On a well-formed directory of suite definitions,
    [GetCiBuilders] returns, and it returns exactly the builder names that
    contain neither ['Builder'] nor ['AAAA'], are a top-level key of a
    [.json] file carrying the generated-file marker, and have at least
    one [isolated_scripts] record whose isolate is a Telemetry GPU isolate
    and whose arguments contain the suite.  When no builder qualifies the
    result is the empty set. *)
Theorem GetCiBuilders_lists_filtered_runners (h : Host) (suite : string)
    (files : list string) :
  listdir h = Return files → wf_directory h files →
  ∃ S, GetCiBuilders h suite = Return S ∧
    (∀ builder, builder ∈ S ↔
       ¬ (occurs_in "Builder" builder ∨ occurs_in "AAAA" builder) ∧
       ∃ test_map, listed h files builder test_map ∧
                   test_map_runs suite test_map) ∧
    ((∀ builder test_map,
        listed h files builder test_map → ¬ test_map_runs suite test_map) →
     S = ∅).
Proof.
  intros Hdir Hwf. unfold GetCiBuilders. rewrite Hdir. simpl.
  destruct (scan_files_wf h suite files ∅ Hwf) as (S & Hscan & HS).
  exists S. split; [exact Hscan|]. split.
  - intros b. rewrite HS, not_excluded_name_spec. split.
    + intros [Hb%elem_of_empty|Hb]; [destruct Hb|exact Hb].
    + intros Hb. by right.
  - intros Hnone. apply set_eq. intros b. rewrite HS. split.
    + intros [Hb|(_ & tm & Hl & Hr)]; [exact Hb|].
      destruct (Hnone b tm Hl Hr).
    + intros Hb%elem_of_empty. destruct Hb.
Qed.

(** C10.  A name that contains ['Builder'] or ['AAAA'] is in no set that
    [GetCiBuilders] returns, whatever the directory holds and whatever the
    entry of that name declares; and on a well-formed directory
    [GetCiBuilders] does return a set, without that name. *)
Theorem excluded_names_never_listed (h : Host) (suite : string)
    (builder : string) :
  occurs_in "Builder" builder ∨ occurs_in "AAAA" builder →
  (∀ S, GetCiBuilders h suite = Return S → builder ∉ S) ∧
  (∀ files, listdir h = Return files → wf_directory h files →
     ∃ S, GetCiBuilders h suite = Return S ∧ builder ∉ S).
Proof.
  intros Hname%excluded_name_spec.
  assert (∀ S, GetCiBuilders h suite = Return S → builder ∉ S) as Hnever.
  { unfold GetCiBuilders. destruct (listdir h) as [files|]; [|discriminate].
    simpl. intros S Hscan Hin.
    destruct (scan_files_excludes h suite files ∅ S Hscan builder Hin)
      as [Hempty%elem_of_empty|Hok]; [destruct Hempty|].
    rewrite Hok in Hname. discriminate Hname. }
  split; [exact Hnever|]. intros files Hdir Hwf.
  destruct (scan_files_wf h suite files ∅ Hwf) as (S & Hscan & _).
  assert (GetCiBuilders h suite = Return S) as Hrun.
  { unfold GetCiBuilders. rewrite Hdir. exact Hscan. }
  exists S. split; [exact Hrun|]. by apply Hnever.
Qed.

(** C6, as amended.  [GetCiBuilders] passes over a directory entry whose
    name does not end in [.json] and over a document without the marker
    key: the listing is the one of the directory without that entry.  A
    [.json] entry that cannot be opened or decoded is not passed over:
    once the entries before it are processed, its exception is the outcome
    of the listing. *)
Theorem unmarked_passed_over_unusable_raised (h : Host) (suite : string)
    (before : list string) (file : string) (after : list string) :
  listdir h = Return (before ++ file :: after) →
  (passed_over h file →
     GetCiBuilders h suite
       = GetCiBuilders (with_listdir h (before ++ after)) suite) ∧
  (∀ e acc,
     endswith file ".json" = true → file_json h file = Raise e →
     scan_files h suite before ∅ = Return acc →
     GetCiBuilders h suite = Raise e).
Proof.
  intros Hdir. unfold GetCiBuilders. rewrite Hdir. cbn [rbind listdir].
  change (listdir (with_listdir h (before ++ after)))
    with (Return (A:=list string) (before ++ after)).
  cbn [rbind]. rewrite scan_files_with_listdir, !scan_files_app. split.
  - intros Hpass.
    destruct (scan_files h suite before ∅) as [acc|]; [|reflexivity].
    cbn [rbind]. rewrite scan_files_cons.
    destruct (negb (endswith file ".json")) eqn:Hext; [reflexivity|].
    destruct Hpass as [Hpass|(j & -> & Hkey)].
    + rewrite Hpass in Hext. discriminate Hext.
    + cbn [rbind]. rewrite Hkey. reflexivity.
  - intros e acc Hext Hjson ->. cbn [rbind].
    rewrite scan_files_cons, Hext, Hjson. reflexivity.
Qed.

(** ** The listing on a concrete directory *)

Lemma gpu_record_wf (isolate : string) (args : list string) :
  wf_record (gpu_record isolate args).
Proof. eexists _, _, _. repeat split; reflexivity. Qed.

Lemma gpu_fyi_wf :
  wf_directory gpu_fyi_host ["chromium.gpu.fyi.json"; "OWNERS"].
Proof.
  intros file Hin Hext.
  apply elem_of_cons in Hin as [->|Hin%list_elem_of_singleton].
  - exists gpu_fyi_items. split; [vm_compute; reflexivity|].
    intros _ builder test_map Hitem Hname. unfold gpu_fyi_items in Hitem.
    repeat (apply elem_of_cons in Hitem as [[= -> ->]|Hitem];
            [first [ vm_compute in Hname; discriminate Hname
                   | eexists; split; [reflexivity|]; right;
                     eexists; split; [reflexivity|];
                     repeat constructor; apply gpu_record_wf ]|]).
    by apply elem_of_nil in Hitem.
  - subst file. vm_compute in Hext. discriminate Hext.
Qed.

Lemma gpu_fyi_listing :
  GetCiBuilders gpu_fyi_host "my_suite"
    = Return {["Linux FYI Release (NVIDIA)"]}.
Proof. by_evaluation. Qed.

Lemma gpu_fyi_builder_listed :
  ∃ test_map,
    listed gpu_fyi_host ["chromium.gpu.fyi.json"; "OWNERS"]
      "GPU FYI Linux Builder" test_map ∧
    test_map_runs "my_suite" test_map.
Proof.
  eexists. split.
  - exists "chromium.gpu.fyi.json", gpu_fyi_items.
    split; [by left|]. split; [vm_compute; reflexivity|].
    split; [vm_compute; reflexivity|]. split; [by eexists|].
    unfold gpu_fyi_items. do 2 right. left.
  - eexists _, _, _. split; [reflexivity|]. split; [reflexivity|].
    split; [by left|]. eexists _, _, _.
    split; [reflexivity|]. split; [reflexivity|]. split; [reflexivity|].
    split; [by_evaluation|by left].
Qed.

(** C5, the strict reading refuted: the compile-only builder has a record
    that runs the suite and is not returned. *)
Lemma compile_only_builder_not_listed :
  ¬ lists_exactly_the_runners gpu_fyi_host "my_suite".
Proof.
  intros Hclaim.
  destruct (Hclaim _ eq_refl gpu_fyi_wf) as (S & HS & Hiff).
  rewrite gpu_fyi_listing in HS. injection HS as <-.
  pose proof (proj2 (Hiff "GPU FYI Linux Builder") gpu_fyi_builder_listed)
    as Hin.
  apply elem_of_singleton in Hin. discriminate Hin.
Qed.

(** The listing of the example directory. *)
Lemma GetCiBuilders_lists_filtered_runners_witness :
  ∃ S, GetCiBuilders gpu_fyi_host "my_suite" = Return S ∧
    (∀ builder, builder ∈ S ↔
       ¬ (occurs_in "Builder" builder ∨ occurs_in "AAAA" builder) ∧
       ∃ test_map,
         listed gpu_fyi_host ["chromium.gpu.fyi.json"; "OWNERS"]
           builder test_map ∧
         test_map_runs "my_suite" test_map) ∧
    ((∀ builder test_map,
        listed gpu_fyi_host ["chromium.gpu.fyi.json"; "OWNERS"]
          builder test_map →
        ¬ test_map_runs "my_suite" test_map) →
     S = ∅).
Proof.
  apply (GetCiBuilders_lists_filtered_runners gpu_fyi_host "my_suite"
           ["chromium.gpu.fyi.json"; "OWNERS"] eq_refl gpu_fyi_wf).
Defined.

(** The compile-only builder of the example directory, which declares the
    suite, is not returned. *)
Lemma excluded_names_never_listed_witness :
  (∀ S, GetCiBuilders gpu_fyi_host "my_suite" = Return S →
        "GPU FYI Linux Builder" ∉ S) ∧
  (∀ files, listdir gpu_fyi_host = Return files →
     wf_directory gpu_fyi_host files →
     ∃ S, GetCiBuilders gpu_fyi_host "my_suite" = Return S ∧
          "GPU FYI Linux Builder" ∉ S).
Proof.
  apply (excluded_names_never_listed gpu_fyi_host "my_suite"
           "GPU FYI Linux Builder").
  left. exists "GPU FYI Linux ", EmptyString. reflexivity.
Defined.

Lemma broken_listing :
  GetCiBuilders broken_host "my_suite" = Raise ValueError.
Proof. by_evaluation. Qed.

Lemma broken_listing_without :
  GetCiBuilders (with_listdir broken_host ["chromium.gpu.fyi.json"])
    "my_suite"
    = Return {["Linux FYI Release (NVIDIA)"]}.
Proof. by_evaluation. Qed.

(** C6, the claim refuted: a truncated [.json] file ends the listing with
    the decoder's error, where skipping it would list the tester of the
    other file. *)
Lemma truncated_file_aborts_listing :
  ¬ skips_unusable_files broken_host "my_suite".
Proof.
  intros Hclaim.
  specialize (Hclaim [] "broken.json" ["chromium.gpu.fyi.json"] eq_refl).
  rewrite broken_listing in Hclaim.
  change ([] ++ ["chromium.gpu.fyi.json"])
    with ["chromium.gpu.fyi.json"] in Hclaim.
  rewrite broken_listing_without in Hclaim.
  assert (unusable_file broken_host "broken.json") as Hbad.
  { split; [vm_compute; reflexivity|]. exists ValueError. reflexivity. }
  specialize (Hclaim Hbad). discriminate Hclaim.
Qed.

(** The [OWNERS] file is passed over; the truncated file is not. *)
Lemma unmarked_passed_over_unusable_raised_witness :
  GetCiBuilders gpu_fyi_host "my_suite"
    = GetCiBuilders (with_listdir gpu_fyi_host ["chromium.gpu.fyi.json"])
        "my_suite" ∧
  GetCiBuilders broken_host "my_suite" = Raise ValueError.
Proof.
  split.
  - apply (unmarked_passed_over_unusable_raised gpu_fyi_host "my_suite"
             ["chromium.gpu.fyi.json"] "OWNERS" [] eq_refl).
    left. vm_compute. reflexivity.
  - apply (proj2 (unmarked_passed_over_unusable_raised broken_host "my_suite"
                    [] "broken.json" ["chromium.gpu.fyi.json"] eq_refl)
             ValueError ∅);
      [vm_compute; reflexivity|reflexivity|reflexivity].
Defined.

(** * Further properties *)

(** ** The inversion of the static table *)

Section inversion.
Implicit Types (table : list (string * list string)) (acc : gmap string string).

Lemma invert_inner_lookup (try_builder : string) (cis : list string) acc
    (ci : string) :
  foldl (λ acc ci, <[ci := try_builder]> acc) acc cis !! ci
    = if decide (ci ∈ cis) then Some try_builder else acc !! ci.
Proof.
  revert acc. induction cis as [|c cis IH]; intros acc.
  - destruct (decide (ci ∈ [])) as [Hin%elem_of_nil|_]; [destruct Hin|].
    reflexivity.
  - change (foldl (λ acc ci, <[ci := try_builder]> acc)
              (<[c := try_builder]> acc) cis !! ci
            = if decide (ci ∈ c :: cis) then Some try_builder else acc !! ci).
    rewrite IH.
    destruct (decide (ci ∈ cis)) as [Hin|Hnin];
      destruct (decide (ci ∈ c :: cis)) as [Hin'|Hnin']; try reflexivity.
    + destruct Hnin'. by right.
    + apply elem_of_cons in Hin' as [->|Hin']; [|by destruct Hnin].
      apply lookup_insert_eq.
    + apply lookup_insert_ne. intros ->. destruct Hnin'. by left.
Qed.

Lemma invert_try_builders_foldl table :
  invert_try_builders table = foldl invert_step ∅ table.
Proof.
  unfold invert_try_builders. generalize (∅ : gmap string string).
  induction table as [|[t l] table IH]; intros acc; [reflexivity|].
  simpl. apply IH.
Qed.

Lemma invert_step_lookup acc (entry : string * list string) (ci : string) :
  invert_step acc entry !! ci
    = if decide (ci ∈ entry.2) then Some entry.1 else acc !! ci.
Proof. apply invert_inner_lookup. Qed.

(** Whatever the table, a binding of the result comes from the start map
    or from an entry of the table. *)
Lemma invert_sound table acc (ci try_builder : string) :
  foldl invert_step acc table !! ci = Some try_builder →
  acc !! ci = Some try_builder ∨
  ∃ cis, (try_builder, cis) ∈ table ∧ ci ∈ cis.
Proof.
  revert acc. induction table as [|[t l] table IH]; intros acc; simpl.
  - by left.
  - intros [Hacc|(cis & Hin & Hci)]%IH.
    + rewrite invert_step_lookup in Hacc. simpl in Hacc.
      destruct (decide (ci ∈ l)) as [Hl|Hl].
      * injection Hacc as ->. right. exists l. split; [by left|done].
      * by left.
    + right. exists cis. split; [by right|done].
Qed.

(** When every entry that lists [ci] has the same key, that key is what
    the result binds [ci] to, once it is bound at all. *)
Lemma invert_complete table acc (ci try_builder : string) :
  (∀ t cis, (t, cis) ∈ table → ci ∈ cis → t = try_builder) →
  acc !! ci = Some try_builder ∨
    (∃ cis, (try_builder, cis) ∈ table ∧ ci ∈ cis) →
  foldl invert_step acc table !! ci = Some try_builder.
Proof.
  revert acc. induction table as [|[t l] table IH]; intros acc Hsame Hbound.
  - destruct Hbound as [Hacc|(cis & Hin%elem_of_nil & _)]; [done|destruct Hin].
  - simpl. apply IH.
    + intros t' cis' Hin. apply Hsame. by right.
    + rewrite invert_step_lookup. simpl.
      destruct (decide (ci ∈ l)) as [Hl|Hl].
      * left. f_equal. apply (Hsame t l); [by left|done].
      * destruct Hbound as [Hacc|(cis & [[= -> ->]|Hin]%elem_of_cons & Hci)].
        -- by left.
        -- by destruct Hl.
        -- right. by exists cis.
Qed.
End inversion.

(** X1.  For a table in which no CI builder is listed under two try
    builders, the import-time loops bind a CI builder to a try builder
    exactly when the list of that try builder names it: every pair of the
    table can be looked up, and nothing else can. *)
Theorem invert_try_builders_lookup (table : list (string * list string))
    (ci try_builder : string) :
  single_valued table →
  invert_try_builders table !! ci = Some try_builder ↔
  ∃ cis, (try_builder, cis) ∈ table ∧ ci ∈ cis.
Proof.
  intros Hsv. rewrite invert_try_builders_foldl. split.
  - intros [Hempty|Hin]%invert_sound; [|exact Hin].
    rewrite lookup_empty in Hempty. discriminate Hempty.
  - intros (cis & Hin & Hci). apply invert_complete.
    + intros t cis' Hin' Hci'. by apply (Hsv t cis' try_builder cis ci).
    + right. by exists cis.
Qed.

(** X2.  For such a table the result does not depend on the order in
    which the entries are visited, which for a [dict] is arbitrary. *)
Theorem invert_try_builders_order (table table' : list (string * list string)) :
  single_valued table → table ≡ₚ table' →
  invert_try_builders table' = invert_try_builders table.
Proof.
  intros Hsv Hperm.
  assert (single_valued table') as Hsv'.
  { intros t1 l1 t2 l2 ci H1 H2. apply (Hsv t1 l1 t2 l2 ci).
    - by rewrite Hperm.
    - by rewrite Hperm. }
  apply map_eq. intros ci.
  destruct (invert_try_builders table !! ci) as [t|] eqn:Hlook.
  - apply invert_try_builders_lookup; [exact Hsv'|].
    apply invert_try_builders_lookup in Hlook as (cis & Hin & Hci);
      [|exact Hsv].
    exists cis. split; [by rewrite <-Hperm|done].
  - destruct (invert_try_builders table' !! ci) as [t|] eqn:Hlook';
      [|reflexivity].
    apply invert_try_builders_lookup in Hlook' as (cis & Hin & Hci);
      [|exact Hsv'].
    assert (invert_try_builders table !! ci = Some t) as Hsome.
    { apply invert_try_builders_lookup; [exact Hsv|].
      exists cis. split; [by rewrite Hperm|done]. }
    rewrite Hsome in Hlook. discriminate Hlook.
Qed.

Lemma overridden_elem (try_builder : string) (cis : list string) (ci : string) :
  (try_builder, cis) ∈ FAKE_TRY_BUILDERS → ci ∈ cis →
  try_builder ∈ overridden_try_builders ci.
Proof.
  intros Hin Hci. unfold overridden_try_builders.
  apply list_elem_of_fmap. exists (try_builder, cis). split; [reflexivity|].
  apply list_elem_of_filter. split; [exact Hci|exact Hin].
Qed.

Lemma FAKE_TRY_BUILDERS_single_valued : single_valued FAKE_TRY_BUILDERS.
Proof.
  intros t1 l1 t2 l2 ci H1 H2 Hc1 Hc2.
  pose proof (overridden_elem t1 l1 ci H1 Hc1) as Ht1.
  pose proof (overridden_elem t2 l2 ci H2 Hc2) as Ht2.
  destruct (overridden_lookup ci) as (t & _ & _ & Heq).
  { intros Hnil. rewrite Hnil in Ht1. by apply elem_of_nil in Ht1. }
  rewrite Heq in Ht1, Ht2.
  apply list_elem_of_singleton in Ht1, Ht2. by subst.
Qed.

(** The table of the module: a listed pair is found again. *)
Lemma invert_try_builders_lookup_witness :
  invert_try_builders FAKE_TRY_BUILDERS !! "ANGLE GPU Linux Release (NVIDIA)"
    = Some "linux-angle-rel" ↔
  ∃ cis, ("linux-angle-rel", cis) ∈ FAKE_TRY_BUILDERS ∧
         "ANGLE GPU Linux Release (NVIDIA)" ∈ cis.
Proof.
  apply (invert_try_builders_lookup FAKE_TRY_BUILDERS
           "ANGLE GPU Linux Release (NVIDIA)" "linux-angle-rel"
           FAKE_TRY_BUILDERS_single_valued).
Defined.

(** The table of the module, visited backwards. *)
Lemma invert_try_builders_order_witness :
  invert_try_builders (reverse FAKE_TRY_BUILDERS)
    = invert_try_builders FAKE_TRY_BUILDERS.
Proof.
  apply (invert_try_builders_order FAKE_TRY_BUILDERS
           (reverse FAKE_TRY_BUILDERS) FAKE_TRY_BUILDERS_single_valued).
  symmetry. apply reverse_Permutation.
Defined.

(** ** The login check *)

Section login.
Context (h : Host).
Implicit Types (w : World) (ci : string).

Lemma bb_output_authenticated ci w :
  authenticated w = true →
  _GetBuildbucketOutputForCiBuilder h ci w
    = ({| authenticated := true;
          spawned := spawned w ++ [BbLsGet (bb_target ci)] |},
       bb_ls_get h (bb_target ci)).
Proof.
  intros Hauth. unfold _GetBuildbucketOutputForCiBuilder, sbind,
    get_authenticated, check_output_ls_get, slift, spawn, sret.
  simpl. rewrite Hauth. unfold sbind. simpl. rewrite Hauth.
  reflexivity.
Qed.

Lemma bb_output_login ci w :
  authenticated w = false → bb_auth_info h = true →
  _GetBuildbucketOutputForCiBuilder h ci w
    = ({| authenticated := true;
          spawned := spawned w ++ [BbAuthInfo; BbLsGet (bb_target ci)] |},
       bb_ls_get h (bb_target ci)).
Proof.
  intros Hauth Hinfo. unfold _GetBuildbucketOutputForCiBuilder, sbind,
    get_authenticated, try_except, check_call_auth_info, sbind,
    check_output_ls_get, slift, spawn, set_authenticated, sret, sraise.
  simpl. rewrite Hauth, Hinfo. unfold sbind. simpl.
  rewrite <-app_assoc. reflexivity.
Qed.

Lemma bb_output_login_failed ci w :
  authenticated w = false → bb_auth_info h = false →
  _GetBuildbucketOutputForCiBuilder h ci w
    = ({| authenticated := false; spawned := spawned w ++ [BbAuthInfo] |},
       Raise (RuntimeError not_logged_in)).
Proof.
  intros Hauth Hinfo. unfold _GetBuildbucketOutputForCiBuilder, sbind,
    get_authenticated, try_except, check_call_auth_info, sbind, spawn,
    sraise.
  simpl. rewrite Hauth, Hinfo. simpl. rewrite Hauth. reflexivity.
Qed.
End login.

(** X3.  The login is checked once per interpreter.  After a call of
    [_GetBuildbucketOutputForCiBuilder] whose login check passed, whether
    or not the query itself then failed, the next call spawns the query
    and nothing else: no second [bb auth-info]. *)
Theorem login_checked_once (h : Host) (w : World) (ci1 ci2 : string) :
  can_query h w →
  let w1 := (_GetBuildbucketOutputForCiBuilder h ci1 w).1 in
  _GetBuildbucketOutputForCiBuilder h ci2 w1
    = ({| authenticated := true;
          spawned := spawned w1 ++ [BbLsGet (bb_target ci2)] |},
       bb_ls_get h (bb_target ci2)).
Proof.
  intros Hq w1. apply bb_output_authenticated. subst w1.
  destruct (authenticated w) eqn:Hauth.
  - by rewrite bb_output_authenticated.
  - destruct Hq as [Hq|Hq]; [congruence|].
    by rewrite bb_output_login.
Qed.

(** Two builders in a row on a host whose [bb] is logged in but fails. *)
Lemma login_checked_once_witness :
  _GetBuildbucketOutputForCiBuilder bare_host "second"
    (_GetBuildbucketOutputForCiBuilder bare_host "first" initial_world).1
    = ({| authenticated := true;
          spawned :=
            spawned
              (_GetBuildbucketOutputForCiBuilder bare_host "first"
                 initial_world).1
            ++ [BbLsGet (bb_target "second")] |},
       bb_ls_get bare_host (bb_target "second")).
Proof.
  apply (login_checked_once bare_host initial_world "first" "second").
  right. reflexivity.
Defined.

(** ** A pass as a function of the host *)

Section pass.
Context (h : Host).
Implicit Types (w : World) (ci : string) (cis : list string).

Lemma login_ok_can_query w : login_ok h w = true ↔ can_query h w.
Proof. unfold login_ok, can_query. apply orb_true_iff. Qed.

(** The outcome of a task depends on the state only through the login
    check, and a task leaves the outcome of that check as it was. *)
Lemma resolve_outcome ci w :
  (_GetMirroredBuildersForCiBuilder h ci w).2
    = task_outcome h (login_ok h w) ci ∧
  login_ok h (_GetMirroredBuildersForCiBuilder h ci w).1 = login_ok h w.
Proof.
  unfold _GetMirroredBuildersForCiBuilder, task_outcome, resolution.
  destruct (bool_decide (ci ∈ NON_CHROMIUM_BUILDERS)).
  { split; [by destruct (login_ok h w)|reflexivity]. }
  destruct (FAKE_CI_BUILDERS !! ci).
  { split; [by destruct (login_ok h w)|reflexivity]. }
  unfold sbind, login_ok.
  destruct (authenticated w) eqn:Hauth; [|destruct (bb_auth_info h) eqn:Hinfo].
  - rewrite (bb_output_authenticated h ci w Hauth). simpl.
    destruct (bb_ls_get h (bb_target ci)) as [out|e]; [|by split].
    simpl. by destruct (String.eqb out EmptyString).
  - rewrite (bb_output_login h ci w Hauth Hinfo). simpl.
    destruct (bb_ls_get h (bb_target ci)) as [out|e]; [|by split].
    simpl. by destruct (String.eqb out EmptyString).
  - rewrite (bb_output_login_failed h ci w Hauth Hinfo). simpl.
    by split.
Qed.

Lemma pool_map_cons {A B} (f : A → M B) (x : A) (xs : list A) w :
  pool_map f (x :: xs) w =
    match f x w with
    | (w1, Return y) =>
        match pool_map f xs w1 with
        | (w2, Return ys) => (w2, Return (y :: ys))
        | (w2, Raise e) => (w2, Raise e)
        end
    | (w1, Raise e) => (w1, Raise e)
    end.
Proof.
  simpl. unfold sbind. destruct (f x w) as [w1 [y|e]]; [|reflexivity].
  by destruct (pool_map f xs w1) as [w2 [ys|e]].
Qed.

Lemma pool_map_outcome cis w :
  (pool_map (_GetMirroredBuildersForCiBuilder h) cis w).2
    = map_results (task_outcome h (login_ok h w)) cis ∧
  login_ok h (pool_map (_GetMirroredBuildersForCiBuilder h) cis w).1
    = login_ok h w.
Proof.
  revert w. induction cis as [|ci cis IH]; intros w; [by split|].
  rewrite pool_map_cons. cbn [map_results].
  destruct (resolve_outcome ci w) as [Hr Hw].
  destruct (_GetMirroredBuildersForCiBuilder h ci w) as [w1 r].
  simpl in Hr, Hw. rewrite <-Hr, <-Hw. destruct r as [r|e]; [|by split].
  destruct (IH w1) as [Hrs Hws].
  destruct (pool_map (_GetMirroredBuildersForCiBuilder h) cis w1) as [w2 rs].
  simpl in Hrs, Hws. rewrite <-Hrs, <-Hws. by destruct rs.
Qed.

Lemma GetTryBuilders_pool cis w :
  GetTryBuilders h cis w
    = ((pool_map (_GetMirroredBuildersForCiBuilder h) cis w).1,
       pass_outcome h
         (pool_map (_GetMirroredBuildersForCiBuilder h) cis w).2).
Proof.
  unfold GetTryBuilders, sbind, pass_outcome.
  destruct (pool_map (_GetMirroredBuildersForCiBuilder h) cis w)
    as [w' [results|e]]; [|reflexivity].
  simpl. destruct (merge_results results) as [m n]. simpl.
  by destruct (bool_decide (n ≠ ∅)).
Qed.

Lemma GetTryBuilders_outcome cis w :
  (GetTryBuilders h cis w).2
    = pass_outcome h (map_results (task_outcome h (login_ok h w)) cis) ∧
  login_ok h (GetTryBuilders h cis w).1 = login_ok h w.
Proof.
  rewrite GetTryBuilders_pool. simpl.
  destruct (pool_map_outcome cis w) as [-> ->]. by split.
Qed.

Lemma map_results_returns {A B} (f : A → result B) (xs : list A) :
  Forall (λ x, ∃ y, f x = Return y) xs →
  ∃ ys, map_results f xs = Return ys ∧ Forall2 (λ x y, f x = Return y) xs ys.
Proof.
  induction 1 as [|x xs [y Hy] _ (ys & Hys & Hall)].
  - exists []. by split.
  - exists (y :: ys). simpl. rewrite Hy, Hys. split; [reflexivity|].
    by constructor.
Qed.

(** The two accumulators, read off the inputs. *)
Lemma merge_results_inputs (f : string → result (gset string * bool)) cis
    (results : list (gset string * bool)) (found : bool) (x : string) :
  Forall2 (λ ci r, f ci = Return r) cis results →
  (∃ b, (b, found) ∈ results ∧ x ∈ b) ↔
  (∃ ci b, ci ∈ cis ∧ f ci = Return (b, found) ∧ x ∈ b).
Proof.
  intros Hall. split.
  - intros (b & Hin & Hx). apply list_elem_of_lookup in Hin as [i Hi].
    destruct (Forall2_lookup_r _ _ _ _ _ Hall Hi) as (ci & Hci & Hres).
    exists ci, b. split; [by eapply list_elem_of_lookup_2|by split].
  - intros (ci & b & Hin & Hres & Hx).
    apply list_elem_of_lookup in Hin as [i Hi].
    destruct (Forall2_lookup_l _ _ _ _ _ Hall Hi) as (r & Hr & Hres').
    rewrite Hres in Hres'. injection Hres' as <-.
    exists b. split; [by eapply list_elem_of_lookup_2|exact Hx].
Qed.
End pass.

(** X4.  The outcome of a pass does not depend on the passes run before
    it in the same interpreter: whatever was resolved first, the second
    pass raises or returns what it would have on the original state.  In
    particular a pass run twice gives the same outcome twice. *)
Theorem pass_independent_of_earlier_passes (h : Host) (w : World)
    (cis1 cis2 : list string) :
  (GetTryBuilders h cis2 (GetTryBuilders h cis1 w).1).2
    = (GetTryBuilders h cis2 w).2.
Proof.
  destruct (GetTryBuilders_outcome h cis1 w) as [_ Hw].
  destruct (GetTryBuilders_outcome h cis2 w) as [-> _].
  destruct (GetTryBuilders_outcome h cis2 (GetTryBuilders h cis1 w).1)
    as [-> _].
  by rewrite Hw.
Qed.

Lemma resolution_task_outcome (h : Host) (w : World) (ci : string) :
  can_query h w → task_outcome h (login_ok h w) ci = resolution h ci.
Proof.
  intros Hq%login_ok_can_query. unfold task_outcome. by rewrite Hq.
Qed.

Lemma pass_outcome_returns (h : Host) (results : list (gset string * bool))
    (S : gset string) :
  pass_outcome h (Return results) = Return S →
  (merge_results results).2 = ∅ ∧ S = (merge_results results).1.
Proof.
  unfold pass_outcome. simpl. case_bool_decide as Hn; [discriminate|].
  intros [= <-]. split; [|reflexivity].
  destruct (decide ((merge_results results).2 = ∅)) as [He|Hne]; [exact He|].
  by destruct Hn.
Qed.

(** X5.  When [GetTryBuilders] returns a set, every input builder was
    resolved, and the set is exactly the union of what the builders
    resolve to: the mapped try builder of a builder of the static table,
    the mirror names of a live query, nothing for a non-Chromium
    builder. *)
Theorem GetTryBuilders_returns_union (h : Host) (w : World)
    (cis : list string) (S : gset string) :
  (GetTryBuilders h cis w).2 = Return S →
  (∀ ci, ci ∈ cis → ∃ b, resolution h ci = Return (b, true)) ∧
  (∀ x, x ∈ S ↔
     ∃ ci b, ci ∈ cis ∧ resolution h ci = Return (b, true) ∧ x ∈ b).
Proof.
  rewrite GetTryBuilders_pool. simpl.
  destruct (pool_map (_GetMirroredBuildersForCiBuilder h) cis w)
    as [w' [results|e]] eqn:Hmap; [|discriminate].
  simpl. intros [Hn ->]%pass_outcome_returns.
  pose proof (pool_map_returns _ _ _ _ _ Hmap) as Hall. split.
  - intros ci [i Hi]%list_elem_of_lookup.
    destruct (Forall2_lookup_l _ _ _ _ _ Hall Hi) as ([b found] & Hr & Hres).
    destruct found; [by exists b|].
    assert (ci ∈ (merge_results results).2) as Hin.
    { apply elem_of_no_output. exists b. split.
      - by eapply list_elem_of_lookup_2.
      - apply resolution_not_found in Hres as (_ & _ & ->).
        by apply elem_of_singleton. }
    rewrite Hn in Hin. apply elem_of_empty in Hin. destruct Hin.
  - intros x. rewrite elem_of_mirrored.
    apply (merge_results_inputs (resolution h) cis results true x Hall).
Qed.

(** A pass over one builder of each resolved kind. *)
Lemma GetTryBuilders_returns_union_witness :
  let h := response_host ["tryserver.chromium.linux:my-try-builder"] in
  let cis := ["Win V8 FYI Release (NVIDIA)"; "my-ci-builder";
              "ANGLE GPU Linux Release (NVIDIA)"] in
  (∀ ci, ci ∈ cis → ∃ b, resolution h ci = Return (b, true)) ∧
  (∀ x, x ∈ ({["my-try-builder"; "linux-angle-rel"]} : gset string) ↔
     ∃ ci b, ci ∈ cis ∧ resolution h ci = Return (b, true) ∧ x ∈ b).
Proof.
  apply (GetTryBuilders_returns_union
           (response_host ["tryserver.chromium.linux:my-try-builder"])
           initial_world).
  by_evaluation.
Defined.

(** X6.  The outcome of a pass depends on the set of its input builders
    only, up to the order of the names in the error message: when the
    login check passes and every builder resolves without an exception,
    two inputs with the same elements, in any order and with any
    repetitions, return the same set, or both raise the aggregate error
    with the same names, which a set may iterate in different orders. *)
Theorem pass_depends_on_input_set (h : Host) (w : World)
    (cis cis' : list string) :
  (list_to_set cis : gset string) = list_to_set cis' →
  can_query h w →
  (∀ ci, ci ∈ cis → ∃ r, resolution h ci = Return r) →
  (∃ S, (GetTryBuilders h cis w).2 = Return S ∧
        (GetTryBuilders h cis' w).2 = Return S) ∨
  (∃ names names',
     names' ≡ₚ names ∧
     (GetTryBuilders h cis w).2
       = Raise (RuntimeError (no_output_message names)) ∧
     (GetTryBuilders h cis' w).2
       = Raise (RuntimeError (no_output_message names'))).
Proof.
  intros Hset Hq Hret.
  assert (∀ ci, ci ∈ cis' ↔ ci ∈ cis) as Hsame.
  { intros ci. rewrite <-!(elem_of_list_to_set (C:=gset string)).
    by rewrite Hset. }
  destruct (GetTryBuilders_outcome h cis w) as [-> _].
  destruct (GetTryBuilders_outcome h cis' w) as [-> _].
  destruct (map_results_returns (task_outcome h (login_ok h w)) cis)
    as (results & -> & Hall).
  { apply Forall_forall. intros ci Hin.
    rewrite resolution_task_outcome by exact Hq. by apply Hret. }
  destruct (map_results_returns (task_outcome h (login_ok h w)) cis')
    as (results' & -> & Hall').
  { apply Forall_forall. intros ci Hin%Hsame.
    rewrite resolution_task_outcome by exact Hq. by apply Hret. }
  assert (∀ found x,
            (∃ b, (b, found) ∈ results' ∧ x ∈ b) ↔
            (∃ b, (b, found) ∈ results ∧ x ∈ b)) as Hres.
  { intros found x.
    rewrite (merge_results_inputs _ cis' results' found x Hall').
    rewrite (merge_results_inputs _ cis results found x Hall).
    split; intros (ci & b & Hin & Hrest); exists ci, b;
      (split; [by apply Hsame|exact Hrest]). }
  assert ((merge_results results').1 = (merge_results results).1) as Hm.
  { apply set_eq. intros x. rewrite !elem_of_mirrored. apply Hres. }
  assert ((merge_results results').2 = (merge_results results).2) as Hn.
  { apply set_eq. intros x. rewrite !elem_of_no_output. apply Hres. }
  unfold pass_outcome. cbn [rbind]. rewrite Hm, Hn.
  case_bool_decide as Hne.
  - right. exists (set_order h (no_output_history results)),
             (set_order h (no_output_history results')).
    split; [|by split].
    by rewrite !set_order_no_output, Hn.
  - left. by eexists.
Qed.

(** The three-tier pass, backwards and with a repeated builder. *)
Lemma pass_depends_on_input_set_witness :
  let cis' := ["ANGLE GPU Linux Release (NVIDIA)"; "my-ci-builder";
               "Win V8 FYI Release (NVIDIA)"; "my-ci-builder"] in
  (∃ S, (GetTryBuilders silent_host three_tiers initial_world).2 = Return S ∧
        (GetTryBuilders silent_host cis' initial_world).2 = Return S) ∨
  (∃ names names',
     names' ≡ₚ names ∧
     (GetTryBuilders silent_host three_tiers initial_world).2
       = Raise (RuntimeError (no_output_message names)) ∧
     (GetTryBuilders silent_host cis' initial_world).2
       = Raise (RuntimeError (no_output_message names'))).
Proof.
  apply (pass_depends_on_input_set silent_host initial_world three_tiers).
  - by_evaluation.
  - right. reflexivity.
  - intros ci Hin. unfold three_tiers in Hin.
    apply elem_of_cons in Hin as [->|Hin];
      [exists (∅, true); by_evaluation|].
    apply elem_of_cons in Hin as [->|Hin];
      [exists ({["my-ci-builder"]}, false); by_evaluation|].
    apply list_elem_of_singleton in Hin as ->.
    exists ({["linux-angle-rel"]}, true). by_evaluation.
Defined.

(** ** Passes that never reach Buildbucket *)

Section static_tiers.
Context (h : Host).
Implicit Types (w : World) (ci : string) (cis : list string).

Lemma resolve_static ci w :
  ci ∈ NON_CHROMIUM_BUILDERS ∨ is_Some (FAKE_CI_BUILDERS !! ci) →
  ∃ b, _GetMirroredBuildersForCiBuilder h ci w = (w, Return (b, true)) ∧
       ∀ x, x ∈ b ↔
            (ci ∉ NON_CHROMIUM_BUILDERS) ∧ FAKE_CI_BUILDERS !! ci = Some x.
Proof.
  intros Hstatic. unfold _GetMirroredBuildersForCiBuilder.
  case_bool_decide as Hnon.
  - exists ∅. split; [reflexivity|]. intros x. split.
    + intros Hx%elem_of_empty. destruct Hx.
    + intros [Hn _]. destruct (Hn Hnon).
  - destruct Hstatic as [Hin|[t Ht]]; [destruct (Hnon Hin)|].
    rewrite Ht. exists {[t]}. split; [reflexivity|]. intros x. split.
    + intros ->%elem_of_singleton. split; [exact Hnon|reflexivity].
    + intros [_ [= ->]]. by apply elem_of_singleton.
Qed.

Lemma pool_map_static cis w :
  (∀ ci, ci ∈ cis →
     ci ∈ NON_CHROMIUM_BUILDERS ∨ is_Some (FAKE_CI_BUILDERS !! ci)) →
  ∃ results,
    pool_map (_GetMirroredBuildersForCiBuilder h) cis w
      = (w, Return results) ∧
    (∀ b, (b, false) ∉ results) ∧
    (∀ x, (∃ b, (b, true) ∈ results ∧ x ∈ b) ↔
          ∃ ci, ci ∈ cis ∧ (ci ∉ NON_CHROMIUM_BUILDERS) ∧
                FAKE_CI_BUILDERS !! ci = Some x).
Proof.
  induction cis as [|ci cis IH]; intros Hstatic.
  - exists []. split; [reflexivity|]. split.
    + intros b Hin%elem_of_nil. destruct Hin.
    + intros x. split.
      * intros (b & Hin%elem_of_nil & _). destruct Hin.
      * intros (ci & Hin%elem_of_nil & _). destruct Hin.
  - destruct (resolve_static ci w) as (b & Hb & Hbx).
    { apply Hstatic. by left. }
    destruct IH as (results & Hmap & Hfound & Hx).
    { intros ci' Hin. apply Hstatic. by right. }
    exists ((b, true) :: results). rewrite pool_map_cons, Hb, Hmap.
    split; [reflexivity|]. split.
    + intros b' [[=]|Hin]%elem_of_cons. by apply (Hfound b').
    + intros x. split.
      * intros (b' & [[= ->]|Hin]%elem_of_cons & Hxb).
        -- exists ci. split; [left|exact (proj1 (Hbx x) Hxb)].
        -- destruct (proj1 (Hx x)) as (ci' & Hin' & Hrest).
           { exists b'. split; assumption. }
           exists ci'. split; [right; exact Hin'|exact Hrest].
      * intros (ci' & [->|Hin]%elem_of_cons & Hrest).
        -- exists b. split; [left|exact (proj2 (Hbx x) Hrest)].
        -- destruct (proj2 (Hx x)) as (b' & Hin' & Hxb).
           { exists ci'. split; [exact Hin|exact Hrest]. }
           exists b'. split; [right; exact Hin'|exact Hxb].
Qed.

Lemma pool_map_login_failed cis w :
  authenticated w = false → bb_auth_info h = false →
  (∃ ci, ci ∈ cis ∧ queried_live ci) →
  pool_map (_GetMirroredBuildersForCiBuilder h) cis w
    = ({| authenticated := false; spawned := spawned w ++ [BbAuthInfo] |},
       Raise (RuntimeError not_logged_in)).
Proof.
  intros Hauth Hinfo. induction cis as [|ci cis IH].
  - intros (ci & Hin%elem_of_nil & _). destruct Hin.
  - intros (ci' & Hin & [Hnon' Hfake']). rewrite pool_map_cons.
    unfold _GetMirroredBuildersForCiBuilder at 1.
    assert (ci' ∈ cis ∨ ci' = ci) as Hwhere.
    { apply elem_of_cons in Hin as [->|Hin]; [by right|by left]. }
    case_bool_decide as Hnon.
    { destruct Hwhere as [Hin'| ->]; [|destruct (Hnon' Hnon)].
      unfold sret. rewrite IH; [reflexivity|].
      exists ci'. split; [exact Hin'|]. split; assumption. }
    destruct (FAKE_CI_BUILDERS !! ci) as [t|] eqn:Hfake.
    { destruct Hwhere as [Hin'| ->]; [|congruence].
      unfold sret. rewrite IH; [reflexivity|].
      exists ci'. split; [exact Hin'|]. split; assumption. }
    unfold sbind. rewrite (bb_output_login_failed h ci w Hauth Hinfo).
    reflexivity.
Qed.
End static_tiers.

(** X7.  A pass over builders that are all non-Chromium or in the static
    table needs no [bb]: on every host, logged in or not, it returns, it
    leaves the state as it was (nothing is spawned), and the set it
    returns holds exactly the try builders the static table maps its
    Chromium builders to. *)
Theorem static_pass_needs_no_bb (h : Host) (w : World) (cis : list string) :
  (∀ ci, ci ∈ cis →
     ci ∈ NON_CHROMIUM_BUILDERS ∨ is_Some (FAKE_CI_BUILDERS !! ci)) →
  ∃ S, GetTryBuilders h cis w = (w, Return S) ∧
    ∀ x, x ∈ S ↔
      ∃ ci, ci ∈ cis ∧ (ci ∉ NON_CHROMIUM_BUILDERS) ∧
            FAKE_CI_BUILDERS !! ci = Some x.
Proof.
  intros Hstatic.
  destruct (pool_map_static h cis w Hstatic) as (results & Hmap & Hfound & Hx).
  exists (merge_results results).1. rewrite GetTryBuilders_pool, Hmap.
  assert ((merge_results results).2 = ∅) as Hn.
  { apply set_eq. intros x. rewrite elem_of_no_output. split.
    - intros (b & Hin & _). destruct (Hfound b Hin).
    - intros Hin%elem_of_empty. destruct Hin. }
  split.
  - unfold pass_outcome. simpl. rewrite Hn.
    rewrite bool_decide_eq_false_2; [reflexivity|]. intros Hne. by apply Hne.
  - intros x. rewrite elem_of_mirrored. apply Hx.
Qed.

(** X8.  Without a login a pass that contains a builder for the live
    query aborts with the login error, whatever else it contains, and no
    Buildbucket query is spawned on its behalf. *)
Theorem failed_login_aborts_pass (h : Host) (w : World) (cis : list string) :
  authenticated w = false → bb_auth_info h = false →
  (∃ ci, ci ∈ cis ∧ queried_live ci) →
  (GetTryBuilders h cis w).2 = Raise (RuntimeError not_logged_in) ∧
  authenticated (GetTryBuilders h cis w).1 = false ∧
  ∀ target, BbLsGet target ∈ spawned (GetTryBuilders h cis w).1 →
            BbLsGet target ∈ spawned w.
Proof.
  intros Hauth Hinfo Hlive.
  rewrite GetTryBuilders_pool, (pool_map_login_failed h cis w Hauth Hinfo Hlive).
  simpl. split; [reflexivity|]. split; [reflexivity|].
  intros target [Hin|Hin%list_elem_of_singleton]%elem_of_app;
    [exact Hin|discriminate Hin].
Qed.

(** Two static builders on a host without [bb]. *)
Lemma static_pass_needs_no_bb_witness :
  let cis := ["Win V8 FYI Release (NVIDIA)";
              "ANGLE GPU Linux Release (NVIDIA)"] in
  ∃ S, GetTryBuilders offline_host cis initial_world
         = (initial_world, Return S) ∧
    ∀ x, x ∈ S ↔
      ∃ ci, ci ∈ cis ∧ (ci ∉ NON_CHROMIUM_BUILDERS) ∧
            FAKE_CI_BUILDERS !! ci = Some x.
Proof.
  apply (static_pass_needs_no_bb offline_host initial_world).
  intros ci Hin.
  apply elem_of_cons in Hin as [->|Hin%list_elem_of_singleton].
  - left. by_evaluation.
  - subst ci. right. by_evaluation.
Defined.

(** A static builder and one for the live query on a host without [bb]. *)
Lemma failed_login_aborts_pass_witness :
  let cis := ["Win V8 FYI Release (NVIDIA)"; "my-ci-builder"] in
  (GetTryBuilders offline_host cis initial_world).2
    = Raise (RuntimeError not_logged_in) ∧
  authenticated (GetTryBuilders offline_host cis initial_world).1 = false ∧
  ∀ target,
    BbLsGet target ∈ spawned (GetTryBuilders offline_host cis initial_world).1 →
    BbLsGet target ∈ spawned initial_world.
Proof.
  apply (failed_login_aborts_pass offline_host initial_world
           ["Win V8 FYI Release (NVIDIA)"; "my-ci-builder"]
           eq_refl eq_refl).
  exists "my-ci-builder". split; [|exact my_ci_builder_queried].
  right. left.
Defined.

(** ** What a resolution returns *)

Lemma split_parts_free (sep : ascii) (s : string) :
  Forall (λ part, count_char sep part = 0) (split sep s).
Proof.
  induction s as [|c s IH]; simpl.
  - by constructor.
  - destruct (Ascii.eqb c sep) eqn:Hc; [by constructor|].
    destruct (split sep s) as [|part parts]; [by repeat constructor; simpl; rewrite Hc|].
    apply Forall_cons in IH as [Hpart Hparts].
    constructor; [|exact Hparts]. simpl. by rewrite Hc.
Qed.

Lemma add_mirrors_colon_free (mirrored : list json) (acc S : gset string) :
  add_mirrors mirrored acc = Return S →
  (∀ x, x ∈ acc → colon_free x) → ∀ x, x ∈ S → colon_free x.
Proof.
  revert acc. induction mirrored as [|mirror rest IH]; intros acc; simpl.
  - intros [= <-]. auto.
  - destruct mirror as [| | |s| |]; try discriminate. simpl.
    pose proof (split_parts_free ":" s) as Hfree.
    destruct (split ":" s) as [|group [|name [|extra parts]]];
      try discriminate.
    intros Hrest Hacc. apply (IH _ Hrest).
    intros x [->%elem_of_singleton|Hx]%elem_of_union; [|by apply Hacc].
    apply Forall_cons in Hfree as [_ Hfree].
    by apply Forall_cons in Hfree as [Hname _].
Qed.

(** X9.  A try builder that the live query contributes never contains a
    colon: the group prefix of a mirror is always removed, never kept. *)
Theorem live_mirror_names_have_no_group (h : Host) (w : World) (ci : string)
    (S : gset string) :
  queried_live ci →
  (_GetMirroredBuildersForCiBuilder h ci w).2 = Return (S, true) →
  ∀ x, x ∈ S → count_char ":" x = 0.
Proof.
  intros Hlive Hres.
  destruct (_GetMirroredBuildersForCiBuilder h ci w) as [w' r] eqn:Hrun.
  simpl in Hres. subst r. apply resolve_returns in Hrun.
  rewrite (resolution_queried h ci Hlive) in Hrun.
  destruct (bb_ls_get h (bb_target ci)) as [out|e]; [|discriminate Hrun].
  simpl in Hrun. destruct (String.eqb out EmptyString); [discriminate Hrun|].
  unfold mirrors_of_output in Hrun.
  destruct (json_loads h out) as [bb_json|]; [|discriminate Hrun].
  simpl in Hrun.
  destruct (mirrored_field bb_json) as [mirrored|]; [|discriminate Hrun].
  simpl in Hrun.
  destruct (py_iter mirrored) as [mirrors|]; [|discriminate Hrun].
  simpl in Hrun.
  destruct (add_mirrors mirrors ∅) as [S'|] eqn:Hadd; [|discriminate Hrun].
  injection Hrun as <-. intros x Hx.
  apply (add_mirrors_colon_free mirrors ∅ S' Hadd); [|exact Hx].
  intros y Hy%elem_of_empty. destruct Hy.
Qed.

(** The mirror of the example response. *)
Lemma live_mirror_names_have_no_group_witness :
  count_char ":" "my-try-builder" = 0.
Proof.
  apply (live_mirror_names_have_no_group
           (response_host ["tryserver.chromium.linux:my-try-builder"])
           initial_world "my-ci-builder" (list_to_set ["my-try-builder"])
           my_ci_builder_queried).
  - by_evaluation.
  - by_evaluation.
Defined.

(** X10.  [found_mirror] is [False] only for a builder whose live query
    printed nothing, and the set returned with it is then the builder
    itself and nothing else, as the docstring promises. *)
Theorem not_found_means_empty_output (h : Host) (w : World) (ci : string)
    (builders : gset string) :
  (_GetMirroredBuildersForCiBuilder h ci w).2 = Return (builders, false) →
  builders = {[ci]} ∧ queried_live ci ∧
  bb_ls_get h (bb_target ci) = Return EmptyString.
Proof.
  intros Hres.
  destruct (_GetMirroredBuildersForCiBuilder h ci w) as [w' r] eqn:Hrun.
  simpl in Hres. subst r.
  apply resolve_returns, resolution_not_found in Hrun as (Hlive & Hout & ->).
  repeat split; first [assumption | apply Hlive].
Qed.

(** The unresolved builder of the three-tier pass. *)
Lemma not_found_means_empty_output_witness :
  ({["my-ci-builder"]} : gset string) = {["my-ci-builder"]} ∧
  queried_live "my-ci-builder" ∧
  bb_ls_get silent_host (bb_target "my-ci-builder") = Return EmptyString.
Proof.
  apply (not_found_means_empty_output silent_host initial_world).
  by_evaluation.
Defined.

(** ** Records with missing keys *)

Section records.
Context (suite : string).

Lemma record_runs_lenient (t : json) : record_runs suite t → lenient_record t.
Proof.
  intros (items & isolate & args & -> & Hiso & Hargs & _).
  exists items. split; [reflexivity|]. split; right; eauto.
Qed.

(** One turn of the loop on a dict: it ends the loop with [True] when the
    record runs the suite and goes on to the next record otherwise. *)
Lemma suite_in_records_step (t : json) :
  lenient_record t →
  ∃ matches : bool,
    (∀ rest, suite_in_records suite (t :: rest)
             = if matches then Return true
               else suite_in_records suite rest) ∧
    (matches = true ↔ record_runs suite t).
Proof.
  intros (items & -> & Hiso & Hargs).
  destruct Hiso as [Hiso|[isolate Hiso]].
  { exists false. split.
    - intros rest. simpl. rewrite Hiso. reflexivity.
    - split; [discriminate|].
      intros (items' & isolate & args & [= <-] & Hiso' & _).
      rewrite Hiso in Hiso'. discriminate Hiso'. }
  destruct (bool_decide (isolate ∈ GPU_TELEMETRY_ISOLATES)) eqn:Hknown.
  2:{ exists false. split.
      - intros rest. simpl. rewrite Hiso. simpl. rewrite Hknown. reflexivity.
      - split; [discriminate|].
        intros (items' & isolate' & args & [= <-] & Hiso' & _ & Hin & _).
        rewrite Hiso in Hiso'. injection Hiso' as <-.
        apply (bool_decide_eq_true_2 _) in Hin. rewrite Hin in Hknown.
        discriminate Hknown. }
  destruct Hargs as [Hargs|[args Hargs]].
  { exists false. split.
    - intros rest. simpl. rewrite Hiso. simpl. rewrite Hknown. simpl.
      rewrite Hargs. reflexivity.
    - split; [discriminate|].
      intros (items' & isolate' & args & [= <-] & _ & Hargs' & _).
      rewrite Hargs in Hargs'. discriminate Hargs'. }
  exists (existsb (json_eq_str suite) args). split.
  - intros rest. simpl. rewrite Hiso. simpl. rewrite Hknown. simpl.
    rewrite Hargs. simpl. by destruct (existsb _ args).
  - rewrite (existsb_json_eq_str suite). split.
    + intros Hin. exists items, isolate, args.
      repeat split; try assumption. by apply bool_decide_eq_true in Hknown.
    + intros (items' & isolate' & args' & [= <-] & _ & Hargs' & _ & Hin).
      rewrite Hargs in Hargs'. by injection Hargs' as <-.
Qed.
End records.

(** X11.  On a list of dicts [_SuiteInTests] never raises, also when
    records lack ['isolate_name'] or ['args']: such a record counts as not
    running the suite, and the answer is [True] exactly when some record
    has a Telemetry GPU isolate and the suite among its arguments. *)
Theorem SuiteInTests_tolerates_missing_keys (suite : string)
    (tests : list json) :
  Forall lenient_record tests →
  ∃ b, _SuiteInTests suite (JArr tests) = Return b ∧
       (b = true ↔ ∃ t, t ∈ tests ∧ record_runs suite t).
Proof.
  unfold _SuiteInTests. simpl.
  induction 1 as [|t tests Ht _ (b & Hrun & Hb)].
  - exists false. split; [reflexivity|]. split; [discriminate|].
    intros (t & Hin%elem_of_nil & _). destruct Hin.
  - destruct (suite_in_records_step suite t Ht) as (matches & Hstep & Hm).
    rewrite Hstep. destruct matches.
    + exists true. split; [reflexivity|]. split; [intros _|reflexivity].
      exists t. split; [by left|by apply Hm].
    + exists b. split; [exact Hrun|]. rewrite Hb. split.
      * intros (t' & Hin & Hr). exists t'. split; [by right|exact Hr].
      * intros (t' & [->|Hin]%elem_of_cons & Hr); [|by exists t'].
        apply Hm in Hr. discriminate Hr.
Qed.

(** Records without an isolate, without arguments, and a complete one. *)
Lemma SuiteInTests_tolerates_missing_keys_witness :
  let tests := [JObj [("args", JArr [JStr "my_suite"])];
                JObj [("isolate_name", JStr "telemetry_gpu_integration_test")];
                gpu_record "telemetry_gpu_integration_test" ["my_suite"]] in
  ∃ b, _SuiteInTests "my_suite" (JArr tests) = Return b ∧
       (b = true ↔ ∃ t, t ∈ tests ∧ record_runs "my_suite" t).
Proof.
  apply (SuiteInTests_tolerates_missing_keys "my_suite").
  repeat constructor.
  - eexists. split; [reflexivity|]. split; [by left|right; by eexists].
  - eexists. split; [reflexivity|]. split; [right; by eexists|by left].
  - apply (record_runs_lenient "my_suite"). eexists _, _, _.
    split; [reflexivity|]. split; [reflexivity|]. split; [reflexivity|].
    split; [by_evaluation|by left].
Defined.

(** X12.  [_SuiteInTests] stops at the first record that runs the suite:
    whatever follows it in the list, even values that are not records at
    all, is not looked at and cannot make the call raise. *)
Theorem SuiteInTests_stops_at_first_match (suite : string) (t : json)
    (before rest : list json) :
  Forall lenient_record before → record_runs suite t →
  _SuiteInTests suite (JArr (before ++ t :: rest)) = Return true.
Proof.
  unfold _SuiteInTests. cbn [py_iter rbind]. intros Hbefore Ht.
  induction Hbefore as [|t' before Ht' _ IH].
  - destruct (suite_in_records_step suite t (record_runs_lenient suite t Ht))
      as (matches & Hstep & Hm).
    rewrite app_nil_l, Hstep. apply Hm in Ht. by rewrite Ht.
  - destruct (suite_in_records_step suite t' Ht') as (matches & Hstep & _).
    rewrite <-app_comm_cons, Hstep. by destruct matches.
Qed.

(** A matching record followed by a number and a string. *)
Lemma SuiteInTests_stops_at_first_match_witness :
  _SuiteInTests "my_suite"
    (JArr ([] ++ gpu_record "telemetry_gpu_integration_test" ["my_suite"]
              :: [JNumber "7"; JStr "not a record"]))
    = Return true.
Proof.
  apply (SuiteInTests_stops_at_first_match "my_suite").
  - constructor.
  - eexists _, _, _.
    split; [reflexivity|]. split; [reflexivity|]. split; [reflexivity|].
    split; [by_evaluation|by left].
Defined.

(** ** The listing and the directory *)

(** X13.  On a well-formed directory the listing does not depend on the
    order in which [os.listdir] reports the entries, nor on an entry being
    reported twice. *)
Theorem GetCiBuilders_order_independent (h : Host) (suite : string)
    (files files' : list string) :
  listdir h = Return files → wf_directory h files →
  (∀ file, file ∈ files' ↔ file ∈ files) →
  GetCiBuilders (with_listdir h files') suite = GetCiBuilders h suite.
Proof.
  intros Hdir Hwf Hsame. unfold GetCiBuilders. rewrite Hdir.
  change (listdir (with_listdir h files')) with (Return (A:=list string) files').
  cbn [rbind]. rewrite scan_files_with_listdir.
  assert (wf_directory h files') as Hwf'.
  { intros file Hin. apply Hwf. by apply Hsame. }
  destruct (scan_files_wf h suite files ∅ Hwf) as (S & -> & HS).
  destruct (scan_files_wf h suite files' ∅ Hwf') as (S' & -> & HS').
  f_equal. apply set_eq. intros b. rewrite HS, HS'.
  assert (∀ tm, listed h files' b tm ↔ listed h files b tm) as Hlisted.
  { intros tm. split; intros (file & items & Hin & Hrest);
      exists file, items; (split; [by apply Hsame|exact Hrest]). }
  split; (intros [Hb|(Hb & tm & Hl & Hr)]; [by left|right]);
    (split; [exact Hb|]); exists tm; (split; [by apply Hlisted|exact Hr]).
Qed.

(** The example directory, reported backwards and with a repetition. *)
Lemma GetCiBuilders_order_independent_witness :
  GetCiBuilders
    (with_listdir gpu_fyi_host ["OWNERS"; "chromium.gpu.fyi.json"; "OWNERS"])
    "my_suite"
    = GetCiBuilders gpu_fyi_host "my_suite".
Proof.
  apply (GetCiBuilders_order_independent gpu_fyi_host "my_suite"
           ["chromium.gpu.fyi.json"; "OWNERS"] _ eq_refl gpu_fyi_wf).
  intros file. rewrite !elem_of_cons, !elem_of_nil. tauto.
Defined.

Section provenance.
Context (h : Host) (suite : string).
Implicit Types (acc S : gset string) (files : list string).

Lemma scan_builders_keys (items : list (string * json)) acc S :
  scan_builders suite items acc = Return S →
  ∀ b, b ∈ S →
    b ∈ acc ∨
    ∃ test_map tests,
      (b, test_map) ∈ items ∧
      py_get test_map "isolated_scripts" (JArr []) = Return tests ∧
      _SuiteInTests suite tests = Return true.
Proof.
  revert acc. induction items as [|[builder tm] items IH]; intros acc.
  - intros [= <-] b Hb. by left.
  - assert (∀ acc', scan_builders suite items acc' = Return S →
              ∀ b, b ∈ S →
                b ∈ acc' ∨
                ∃ test_map tests,
                  (b, test_map) ∈ (builder, tm) :: items ∧
                  py_get test_map "isolated_scripts" (JArr [])
                    = Return tests ∧
                  _SuiteInTests suite tests = Return true) as IH'.
    { intros acc' Hscan b Hb.
      destruct (IH acc' Hscan b Hb) as [Hacc|(tm' & tests & Hin & Hrest)];
        [by left|right].
      exists tm', tests. split; [by right|exact Hrest]. }
    rewrite scan_builders_cons.
    destruct (excluded_name builder); [apply IH'|].
    destruct (py_get tm "isolated_scripts" (JArr [])) as [tests|] eqn:Hget;
      [|discriminate].
    cbn [rbind].
    destruct (_SuiteInTests suite tests) as [[]|] eqn:Hruns;
      cbn [rbind negb]; [|apply IH'|discriminate].
    intros Hscan b Hb.
    destruct (IH' _ Hscan b Hb)
      as [[->%elem_of_singleton|Hacc]%elem_of_union|Hrest].
    + right. exists tm, tests. split; [by left|by split].
    + by left.
    + by right.
Qed.

Lemma scan_files_keys files acc S :
  scan_files h suite files acc = Return S →
  ∀ b, b ∈ S →
    b ∈ acc ∨
    ∃ test_map tests,
      listed h files b test_map ∧
      py_get test_map "isolated_scripts" (JArr []) = Return tests ∧
      _SuiteInTests suite tests = Return true.
Proof.
  revert acc. induction files as [|file files IH]; intros acc.
  - intros [= <-] b Hb. by left.
  - assert (∀ acc', scan_files h suite files acc' = Return S →
              ∀ b, b ∈ S →
                b ∈ acc' ∨
                ∃ test_map tests,
                  listed h (file :: files) b test_map ∧
                  py_get test_map "isolated_scripts" (JArr [])
                    = Return tests ∧
                  _SuiteInTests suite tests = Return true) as IH'.
    { intros acc' Hscan b Hb.
      destruct (IH acc' Hscan b Hb) as [Hacc|(tm & tests & Hl & Hrest)];
        [by left|right].
      exists tm, tests. split; [by apply listed_tail|exact Hrest]. }
    rewrite scan_files_cons.
    destruct (endswith file ".json") eqn:Hext; cbn [negb]; [|apply IH'].
    destruct (file_json h file) as [j|] eqn:Hjson; [|discriminate].
    cbn [rbind].
    destruct (py_contains AUTOGENERATED_JSON_KEY j) as [[]|] eqn:Hkey;
      cbn [rbind negb]; [|apply IH'|discriminate].
    destruct j as [| | | | |items]; try discriminate.
    cbn [py_iteritems rbind].
    destruct (scan_builders suite items acc) as [acc'|] eqn:Hitems;
      [|discriminate].
    cbn [rbind]. intros Hscan b Hb.
    destruct (IH' _ Hscan b Hb) as [Hacc|Hrest]; [|by right].
    destruct (scan_builders_keys items acc acc' Hitems b Hacc)
      as [Hb0|(tm & tests & Hin & Hrest)]; [by left|right].
    exists tm, tests. split; [|exact Hrest].
    exists file, items. split; [by left|]. split; [exact Hext|].
    split; [exact Hjson|]. split; [|exact Hin].
    injection Hkey as Hkey. by apply bool_decide_eq_true in Hkey.
Qed.
End provenance.

(** X14.  Whatever the directory holds, well-formed or not, a name that
    [GetCiBuilders] returns is a top-level key of a [.json] entry carrying
    the generated-file marker, and [_SuiteInTests] answered [True] for the
    ['isolated_scripts'] of that key: no name is made up, and none comes
    from an unmarked file. *)
Theorem GetCiBuilders_returns_listed_keys (h : Host) (suite : string)
    (files : list string) (S : gset string) (builder : string) :
  listdir h = Return files → GetCiBuilders h suite = Return S →
  builder ∈ S →
  ∃ test_map tests,
    listed h files builder test_map ∧
    py_get test_map "isolated_scripts" (JArr []) = Return tests ∧
    _SuiteInTests suite tests = Return true.
Proof.
  intros Hdir. unfold GetCiBuilders. rewrite Hdir. cbn [rbind].
  intros Hscan Hin.
  destruct (scan_files_keys h suite files ∅ S Hscan builder Hin)
    as [Hempty%elem_of_empty|Hrest]; [destruct Hempty|exact Hrest].
Qed.

(** The tester of the example directory. *)
Lemma GetCiBuilders_returns_listed_keys_witness :
  ∃ test_map tests,
    listed gpu_fyi_host ["chromium.gpu.fyi.json"; "OWNERS"]
      "Linux FYI Release (NVIDIA)" test_map ∧
    py_get test_map "isolated_scripts" (JArr []) = Return tests ∧
    _SuiteInTests "my_suite" tests = Return true.
Proof.
  apply (GetCiBuilders_returns_listed_keys gpu_fyi_host "my_suite"
           ["chromium.gpu.fyi.json"; "OWNERS"]
           {["Linux FYI Release (NVIDIA)"]} "Linux FYI Release (NVIDIA)"
           eq_refl gpu_fyi_listing).
  by apply elem_of_singleton.
Defined.

(** ** Exceptions and subprocesses of a pass *)

Lemma map_results_raises {A B} (f : A → result B) (xs : list A) :
  (∃ x e, x ∈ xs ∧ f x = Raise e) →
  ∃ x e, x ∈ xs ∧ f x = Raise e ∧ map_results f xs = Raise e.
Proof.
  induction xs as [|x xs IH].
  - intros (x & e & Hin%elem_of_nil & _). destruct Hin.
  - intros (x' & e & Hin & Hx'). simpl.
    destruct (f x) as [y|e0] eqn:Hx.
    + apply elem_of_cons in Hin as [->|Hin]; [congruence|].
      destruct IH as (x1 & e1 & Hin1 & Hx1 & Hmap); [by exists x', e|].
      exists x1, e1. split; [by right|]. split; [exact Hx1|].
      simpl. by rewrite Hmap.
    + exists x, e0. split; [by left|]. by split.
Qed.

(** X15.  An exception of one task is the outcome of the whole pass: when
    the login check passes and the resolution of some input builder
    raises, [GetTryBuilders] raises the exception of such a builder, not
    the aggregate error, and returns nothing of what the other builders
    resolved to. *)
Theorem task_exception_aborts_pass (h : Host) (w : World) (cis : list string) :
  can_query h w →
  (∃ ci e, ci ∈ cis ∧ resolution h ci = Raise e) →
  ∃ ci e, ci ∈ cis ∧ resolution h ci = Raise e ∧
          (GetTryBuilders h cis w).2 = Raise e.
Proof.
  intros Hq Hraise. destruct (GetTryBuilders_outcome h cis w) as [-> _].
  apply login_ok_can_query in Hq. rewrite Hq.
  change (task_outcome h true) with (resolution h).
  destruct (map_results_raises (resolution h) cis Hraise)
    as (ci & e & Hin & Hci & ->).
  exists ci, e. split; [exact Hin|]. split; [exact Hci|reflexivity].
Qed.

(** A pass with a static builder and one whose output is not JSON. *)
Lemma task_exception_aborts_pass_witness :
  let cis := ["ANGLE GPU Linux Release (NVIDIA)"; "my-ci-builder"] in
  ∃ ci e, ci ∈ cis ∧ resolution garbled_host ci = Raise e ∧
          (GetTryBuilders garbled_host cis initial_world).2 = Raise e.
Proof.
  apply (task_exception_aborts_pass garbled_host initial_world).
  - right. reflexivity.
  - exists "my-ci-builder", ValueError. split; [right; left|].
    by_evaluation.
Defined.

Section subprocesses.
Context (h : Host).
Implicit Types (w : World) (ci : string) (cis : list string).

Lemma resolve_spawned ci w (c : command) :
  c ∈ spawned (_GetMirroredBuildersForCiBuilder h ci w).1 →
  spawned_for [ci] w c.
Proof.
  unfold _GetMirroredBuildersForCiBuilder, spawned_for.
  case_bool_decide as Hnon; [by left|].
  destruct (FAKE_CI_BUILDERS !! ci) as [t|] eqn:Hfake; [by left|].
  assert (queried_live ci) as Hlive by (split; assumption).
  clear Hnon Hfake. unfold sbind.
  assert (∀ w1 r,
            (let (w', r') := (w1, r) in
             match r' with
             | Return a =>
                 (if String.eqb a EmptyString
                  then sret ({[ci]}, false)
                  else slift (mirrors_of_output h a)) w'
             | Raise e => (w', Raise e)
             end).1 = w1) as Hstate.
  { intros w1 [out|e]; [|reflexivity].
    by destruct (String.eqb out EmptyString). }
  destruct (authenticated w) eqn:Hauth; [|destruct (bb_auth_info h) eqn:Hinfo].
  - rewrite (bb_output_authenticated h ci w Hauth), Hstate. simpl.
    intros [Hin|Hin%list_elem_of_singleton]%elem_of_app; [by left|].
    right. right. exists ci. split; [by left|]. by split.
  - rewrite (bb_output_login h ci w Hauth Hinfo), Hstate. simpl.
    intros [Hin|Hin]%elem_of_app; [by left|].
    apply elem_of_cons in Hin as [->|Hin%list_elem_of_singleton];
      [by right; left|].
    right. right. exists ci. split; [by left|]. by split.
  - rewrite (bb_output_login_failed h ci w Hauth Hinfo). simpl.
    intros [Hin|Hin%list_elem_of_singleton]%elem_of_app; [by left|].
    by right; left.
Qed.

Lemma pool_map_spawned cis w (c : command) :
  c ∈ spawned (pool_map (_GetMirroredBuildersForCiBuilder h) cis w).1 →
  spawned_for cis w c.
Proof.
  revert w. induction cis as [|ci cis IH]; intros w; [by left|].
  rewrite pool_map_cons.
  pose proof (resolve_spawned ci w) as Hfirst.
  destruct (_GetMirroredBuildersForCiBuilder h ci w) as [w1 [r|e]].
  - pose proof (IH w1) as Hrest.
    destruct (pool_map (_GetMirroredBuildersForCiBuilder h) cis w1)
      as [w2 rs].
    assert (c ∈ spawned w2 → spawned_for (ci :: cis) w c) as Hboth.
    { intros [Hin|[->|(ci' & Hin & Hlive & ->)]]%Hrest.
      - destruct (Hfirst c Hin) as [?|[?|(ci' & Hin' & Hlive & ->)]];
          [by left|by right; left|].
        apply list_elem_of_singleton in Hin' as ->.
        right. right. exists ci. split; [by left|by split].
      - by right; left.
      - right. right. exists ci'. split; [by right|by split]. }
    by destruct rs.
  - simpl. intros Hin.
    destruct (Hfirst c Hin) as [?|[?|(ci' & Hin' & Hlive & ->)]];
      [by left|by right; left|].
    apply list_elem_of_singleton in Hin' as ->.
    right. right. exists ci. split; [by left|by split].
Qed.
End subprocesses.

(** X16.  Whatever the outcome of a pass, a subprocess it spawned is the
    login check or the query of an input builder that is in neither
    table: a builder of the static table or of the non-Chromium set is
    never queried, and neither is a builder that was not passed in. *)
Theorem pass_queries_only_live_inputs (h : Host) (w : World)
    (cis : list string) (c : command) :
  c ∈ spawned (GetTryBuilders h cis w).1 →
  c ∈ spawned w ∨ c = BbAuthInfo ∨
  ∃ ci, ci ∈ cis ∧ queried_live ci ∧ c = BbLsGet (bb_target ci).
Proof.
  rewrite GetTryBuilders_pool. simpl. apply pool_map_spawned.
Qed.

(** The query of the three-tier pass. *)
Lemma pass_queries_only_live_inputs_witness :
  BbLsGet "chromium/ci/my-ci-builder" ∈ spawned initial_world ∨
  BbLsGet "chromium/ci/my-ci-builder" = BbAuthInfo ∨
  ∃ ci, ci ∈ three_tiers ∧ queried_live ci ∧
        BbLsGet "chromium/ci/my-ci-builder" = BbLsGet (bb_target ci).
Proof.
  apply (pass_queries_only_live_inputs silent_host initial_world three_tiers).
  by_evaluation.
Defined.

(** ** The outcomes of a pass *)

(** C2, the strict reading refuted: a pass raises without any of its
    builders being unresolved when a task itself raises, here the login
    error on a host without [bb] and the decoder's error on a host whose
    [bb] prints something that is not JSON. *)
Lemma pass_raises_without_unresolved_builder :
  ¬ raises_iff_unresolved offline_host initial_world ["my-ci-builder"] ∧
  ¬ raises_iff_unresolved garbled_host initial_world ["my-ci-builder"].
Proof.
  split; intros [Hraise _].
  - destruct Hraise as (ci & Hin & _ & Hout).
    { exists (RuntimeError not_logged_in). by_evaluation. }
    apply list_elem_of_singleton in Hin as ->. discriminate Hout.
  - destruct Hraise as (ci & Hin & _ & Hout).
    { exists ValueError. by_evaluation. }
    apply list_elem_of_singleton in Hin as ->. discriminate Hout.
Qed.

Lemma map_results_raised {A B} (f : A → result B) (xs : list A) (e : exn) :
  map_results f xs = Raise e → ∃ x, x ∈ xs ∧ f x = Raise e.
Proof.
  induction xs as [|x xs IH]; [intros [=]|].
  simpl. destruct (f x) as [y|e0] eqn:Hx.
  - simpl. destruct (map_results f xs) as [ys|e1]; [intros [=]|].
    simpl. intros [= ->]. destruct IH as (x' & Hin & Hx'); [reflexivity|].
    exists x'. split; [by right|exact Hx'].
  - simpl. intros [= ->]. exists x. split; [by left|exact Hx].
Qed.

(** C2, as amended.  [GetTryBuilders] raises exactly when the task of an
    input builder raises or an input builder is unresolved, that is, its
    live query printed nothing.  When a task raises, the pass raises the
    exception of such a task, as it is.  When no task raises and some
    input builder is unresolved, the pass raises the one [RuntimeError]
    whose message is made of the names of the unresolved input builders,
    each of them once and occurring in it, in the order in which the
    failure set iterates.  When no task raises and no input builder is
    unresolved, the pass returns the union of the try builders that the
    tasks returned. *)
Theorem GetTryBuilders_outcomes (h : Host) (w : World) (cis : list string) :
  let task ci := (_GetMirroredBuildersForCiBuilder h ci w).2 in
  let unresolved ci := ci ∈ cis ∧ unresolved_builder h ci in
  ((∃ ci e, ci ∈ cis ∧ task ci = Raise e) →
     ∃ ci e, ci ∈ cis ∧ task ci = Raise e ∧
             (GetTryBuilders h cis w).2 = Raise e) ∧
  ((∀ ci, ci ∈ cis → ∃ r, task ci = Return r) →
     ((∃ ci, unresolved ci) →
        ∃ names,
          NoDup names ∧ (∀ b, b ∈ names ↔ unresolved b) ∧
          (GetTryBuilders h cis w).2
            = Raise (RuntimeError (no_output_message names)) ∧
          ∀ b, unresolved b → occurs_in b (no_output_message names)) ∧
     ((¬ ∃ ci, unresolved ci) →
        ∃ S, (GetTryBuilders h cis w).2 = Return S ∧
          ∀ x, x ∈ S ↔
            ∃ ci b, ci ∈ cis ∧ task ci = Return (b, true) ∧ x ∈ b)) ∧
  ((∃ e, (GetTryBuilders h cis w).2 = Raise e) ↔
   (∃ ci e, ci ∈ cis ∧ task ci = Raise e) ∨ ∃ ci, unresolved ci).
Proof.
  intros task unresolved. subst task unresolved. cbn beta.
  destruct (GetTryBuilders_outcome h cis w) as [Hout _].
  pose proof (λ ci, proj1 (resolve_outcome h ci w)) as Htask.
  cbn beta in Htask.
  destruct (pool_map_outcome h cis w) as [Hpool _].
  rewrite Hout. clear Hout.
  pose proof (no_output_builders_spec h cis w) as Hspec.
  destruct (pool_map (_GetMirroredBuildersForCiBuilder h) cis w)
    as [w' pool]. cbn [snd] in Hpool. subst pool.
  set (f := task_outcome h (login_ok h w)) in *.
  assert (∀ results, map_results f cis = Return results →
            pass_outcome h (map_results f cis)
              = Raise (RuntimeError
                         (no_output_message
                            (set_order h (no_output_history results)))) ↔
            ∃ ci, ci ∈ cis ∧ unresolved_builder h ci) as Hfail.
  { intros results Hmap. rewrite Hmap in Hspec |- *.
    unfold pass_outcome. cbn [rbind]. case_bool_decide as Hne.
    - split; [intros _|reflexivity].
      apply set_choose_L in Hne as [b Hb]. exists b.
      by apply (Hspec w' results b eq_refl).
    - split; [intros [=]|]. intros (ci & Hci).
      apply (Hspec w' results ci eq_refl) in Hci.
      rewrite Hne in Hci. apply elem_of_empty in Hci. destruct Hci. }
  split; [|split].
  - intros (ci & e & Hin & Hci). rewrite Htask in Hci.
    destruct (map_results_raises f cis) as (ci' & e' & Hin' & Hci' & Hmap);
      [by exists ci, e|].
    exists ci', e'. split; [exact Hin'|]. split; [by rewrite Htask|].
    by rewrite Hmap.
  - intros Hret.
    destruct (map_results_returns f cis) as (results & Hmap & Hall).
    { apply Forall_forall. intros ci Hin.
      destruct (Hret ci Hin) as [r Hr]. rewrite Htask in Hr. by exists r. }
    specialize (Hfail results Hmap). rewrite Hmap in Hspec.
    specialize (Hspec w' results). split.
    + intros Hsome. apply Hfail in Hsome.
      destruct (set_order_spec h (no_output_history results))
        as [Hnodup Hnames].
      assert (∀ b, b ∈ set_order h (no_output_history results) ↔
                   b ∈ cis ∧ unresolved_builder h b) as Hexact.
      { intros b. rewrite Hnames, elem_of_no_output_history.
        apply (Hspec b eq_refl). }
      exists (set_order h (no_output_history results)).
      split; [exact Hnodup|]. split; [exact Hexact|].
      split; [exact Hsome|].
      intros b Hb%Hexact. unfold no_output_message.
      do 4 apply occurs_in_append_l. by apply join_occurs.
    + intros Hnone. rewrite Hmap in Hfail |- *.
      unfold pass_outcome in Hfail |- *. cbn [rbind] in Hfail |- *.
      case_bool_decide as Hne; [destruct Hnone; by apply Hfail|].
      exists (merge_results results).1. split; [reflexivity|].
      intros x. rewrite elem_of_mirrored.
      rewrite (merge_results_inputs f cis results true x Hall).
      split; intros (ci & b & Hin & Hr & Hx); exists ci, b;
        (split; [exact Hin|]); (split; [|exact Hx]).
      * by rewrite Htask.
      * by rewrite <-Htask.
  - destruct (map_results f cis) as [results|e] eqn:Hmap.
    + specialize (Hfail results eq_refl). split.
      * intros [e He]. right. apply Hfail. revert He.
        unfold pass_outcome. cbn [rbind].
        by case_bool_decide; [intros _|intros [=]].
      * intros [(ci & e & Hin & Hci)|Hsome].
        -- rewrite Htask in Hci.
           destruct (map_results_raises f cis)
             as (ci' & e' & _ & _ & Hmap'); [by exists ci, e|].
           rewrite Hmap in Hmap'. discriminate Hmap'.
        -- apply Hfail in Hsome. by eexists.
    + split; [intros _|intros _; by eexists].
      left. destruct (map_results_raised f cis e Hmap) as (ci & Hin & Hci).
      exists ci, e. split; [exact Hin|]. by rewrite Htask.
Qed.

(** The three-tier pass, where no task raises, raises the aggregate
    error naming its one unresolved builder. *)
Lemma GetTryBuilders_outcomes_witness :
  ∃ names,
    NoDup names ∧
    (∀ b, b ∈ names ↔ b ∈ three_tiers ∧ unresolved_builder silent_host b) ∧
    (GetTryBuilders silent_host three_tiers initial_world).2
      = Raise (RuntimeError (no_output_message names)) ∧
    ∀ b, b ∈ three_tiers ∧ unresolved_builder silent_host b →
         occurs_in b (no_output_message names).
Proof.
  pose proof (GetTryBuilders_outcomes silent_host initial_world three_tiers)
    as (_ & Hreturned & _).
  destruct Hreturned as (Hraises & _).
  - intros ci Hin. unfold three_tiers in Hin.
    apply elem_of_cons in Hin as [->|Hin];
      [exists (∅, true); by_evaluation|].
    apply elem_of_cons in Hin as [->|Hin];
      [exists ({["my-ci-builder"]}, false); by_evaluation|].
    apply list_elem_of_singleton in Hin as ->.
    exists ({["linux-angle-rel"]}, true). by_evaluation.
  - apply Hraises. exists "my-ci-builder". split; [right; left|].
    split; [|reflexivity]. split; [|reflexivity].
    by_evaluation.
Defined.
